(** * virtray: tray icons for libvirt domains

    A shallow embedding of [virtray.py] and the properties of its window
    handling ([WindowManager]), hypervisor session ([LibvirtManager]) and tray
    orchestration ([VirtTray]).

    Python [str] values are modelled as [string]; a character stands for a
    code point below 256.  External collaborators (the shell, the clock, the
    file system and libvirt) are the operations of the class [Env]; the
    program itself is written in a monad that threads the external world and
    the Qt objects and records every observable effect as an [Event]. *)

From Stdlib Require Import ZArith Ascii String.
From stdpp Require Import base list strings gmap.

Local Open Scope string_scope.
Local Open Scope list_scope.

(** ** Python string methods used by the program *)
Module Py.

(** [str.isspace] on the code points below 256. *)
Definition is_space (c : ascii) : bool :=
  let n := nat_of_ascii c in
  (Nat.leb 9 n && Nat.leb n 13) || (Nat.leb 28 n && Nat.leb n 32)
  || Nat.eqb n 133 || Nat.eqb n 160.

Fixpoint lstrip (s : string) : string :=
  match s with
  | EmptyString => EmptyString
  | String c r => if is_space c then lstrip r else s
  end.

Fixpoint rstrip (s : string) : string :=
  match s with
  | EmptyString => EmptyString
  | String c r =>
      match rstrip r with
      | EmptyString => if is_space c then EmptyString else String c EmptyString
      | r' => String c r'
      end
  end.

(** [s.strip()] *)
Definition strip (s : string) : string := rstrip (lstrip s).

(** [s.split(sep)] for a one-character separator: never the empty list. *)
Fixpoint split_char (sep : ascii) (s : string) : list string :=
  match s with
  | EmptyString => [EmptyString]
  | String c r =>
      if Ascii.eqb c sep then EmptyString :: split_char sep r
      else match split_char sep r with
           | h :: t => String c h :: t
           | [] => [String c EmptyString]
           end
  end.

Definition newline : ascii := ascii_of_nat 10.

(** The longest whitespace-free prefix of [s], and what follows it. *)
Fixpoint take_field (s : string) : string * string :=
  match s with
  | EmptyString => (EmptyString, EmptyString)
  | String c r =>
      if is_space c then (EmptyString, s)
      else let '(f, rest) := take_field r in (String c f, rest)
  end.

(** [s.split(sep=None, maxsplit=n)]: fields are separated by runs of
    whitespace; after [n] fields the remainder, leading whitespace removed,
    is the last element when it is not empty. *)
Fixpoint split_ws (maxsplit : nat) (s : string) : list string :=
  match lstrip s with
  | EmptyString => []
  | s' =>
      match maxsplit with
      | O => [s']
      | S n => let '(f, rest) := take_field s' in f :: split_ws n rest
      end
  end.

(** [l[-1]] *)
Definition last_item {A} (l : list A) : option A := last l.

End Py.

(** ** Exceptions, events and the external world *)

Inductive Exn : Type := ValueError | IndexError | AttributeError | LibvirtError.

Inductive Outcome (A : Type) : Type :=
| Ok (a : A)
| Raise (e : Exn).
Arguments Ok {A} a.
Arguments Raise {A} e.

(** Calls through the libvirt binding; a domain handle is named by the name
    it was looked up with. *)
Inductive LibvirtCall : Type :=
| LvOpen (uri : string)
| LvLookupByName (name : string)
| LvIsActive (name : string)
| LvCreate (name : string)
| LvDestroy (name : string)
| LvSave (name path : string)
| LvRestore (path : string).

(** What the process does to its surroundings, in the order it does it. *)
Inductive Event : Type :=
| Exec (command : string)
| Sleep (ms : Z)
| Stdout (line : string)
| ShowMessage (tray : nat) (title msg : string) (msecs : Z)
| Libvirt (call : LibvirtCall)
| AppQuit.

(** [QSystemTrayIcon.ActivationReason] *)
Inductive ActivationReason : Type :=
| Unknown | Context | DoubleClick | Trigger | MiddleClick.

(** The collaborators outside the program.  Queries read the world, commands
    and mutators may change it.  The two laws are what the program relies on
    from libvirt: a save that succeeds leaves its file behind, and a restore
    that succeeds touches no save file but its own. *)
Class Env : Type := {
  World : Type;
  Conn : Type;
  Dom : Type;
  shell : string → World → string * World;
  sleep : Z → World → World;
  path_exists : string → World → bool;
  lv_open : string → World → Outcome Conn * World;
  lv_lookupByName : Conn → string → World → Outcome Dom;
  lv_isActive : Dom → World → Outcome Z;
  lv_create : Dom → World → Outcome unit * World;
  lv_destroy : Dom → World → Outcome unit * World;
  lv_save : Dom → string → World → Outcome unit * World;
  lv_restore : Conn → string → World → Outcome unit * World;
  lv_save_writes : ∀ h p w w',
    lv_save h p w = (Ok (), w') → path_exists p w' = true;
  lv_restore_frame : ∀ c p w w',
    lv_restore c p w = (Ok (), w') →
    ∀ q, q ≠ p → path_exists q w' = path_exists q w;
}.

(** ** Qt objects *)

Record QAction : Type := { text : string; enabled : bool }.

Record QSystemTrayIcon : Type := {
  tray_icon : string;
  toolTip : string;
  contextMenu : option (list nat);
  visible : bool;
}.

(** ** Configuration *)

Record Item : Type := { icon : string; domain : string }.

Record Config : Type := { items : list Item }.

(** ** The effect monad *)
Section Program.
Context `{Env}.

Record State : Type := {
  world : World;
  actions : list QAction;
  trays : list QSystemTrayIcon;
}.

Record Res (A : Type) : Type := {
  outcome : Outcome A;
  final : State;
  emitted : list Event;
}.
Arguments outcome {A} r.
Arguments final {A} r.
Arguments emitted {A} r.

Definition M (A : Type) : Type := State → Res A.

Definition ret {A} (a : A) : M A :=
  λ s, {| outcome := Ok a; final := s; emitted := [] |}.

Definition bind {A B} (m : M A) (k : A → M B) : M B :=
  λ s,
    let r := m s in
    match outcome r with
    | Ok a =>
        let r' := k a (final r) in
        {| outcome := outcome r'; final := final r';
           emitted := emitted r ++ emitted r' |}
    | Raise e =>
        {| outcome := Raise e; final := final r; emitted := emitted r |}
    end.

#[export] Instance M_ret : MRet M := @ret.
#[export] Instance M_bind : MBind M := λ A B k m, bind m k.

Definition raise {A} (e : Exn) : M A :=
  λ s, {| outcome := Raise e; final := s; emitted := [] |}.

Definition emit (e : Event) : M unit :=
  λ s, {| outcome := Ok (); final := s; emitted := [e] |}.

Definition lift {A} (o : Outcome A) : M A :=
  match o with Ok a => ret a | Raise e => raise e end.

(** A query of the world. *)
Definition ask {A} (q : World → A) : M A :=
  λ s, {| outcome := Ok (q (world s)); final := s; emitted := [] |}.

(** A command on the world. *)
Definition act {A} (c : World → A * World) : M A :=
  λ s,
    let '(a, w) := c (world s) in
    {| outcome := Ok a;
       final := {| world := w; actions := actions s; trays := trays s |};
       emitted := [] |}.

(** [for x in l: body(x)] *)
Fixpoint for_each {A} (l : list A) (body : A → M unit) : M unit :=
  match l with
  | [] => ret ()
  | x :: l' => body x;; for_each l' body
  end.

(** *** Builtins and the standard library *)

(** [print(line)] *)
Definition print (line : string) : M unit := emit (Stdout line).

(** [time.sleep(ms / 1000)] *)
Definition time_sleep (ms : Z) : M unit :=
  emit (Sleep ms);; act (λ w, ((), sleep ms w)).

(** [os.path.exists(path)] *)
Definition os_path_exists (path : string) : M bool := ask (path_exists path).

(** ** [execute_command]

    [shell] gives the decoded standard output of the command; its exit status
    and standard error are dropped, as [subprocess.run] is used in the
    source. *)
Definition execute_command (command : string) : M string :=
  emit (Exec command);; act (shell command).

(** ** [WindowManager] *)

Record WmctrlItem : Type := { window_id : string; title : string }.

(** [window_id, _, _, title = line.split(sep=None, maxsplit=3)] *)
Definition unpack_line (line : string) : Outcome WmctrlItem :=
  match Py.split_ws 3 line with
  | [w; _; _; t] => Ok {| window_id := w; title := t |}
  | _ => Raise ValueError
  end.

(** The loop of [get_wmctrl_items]: [items] is the list built so far. *)
Fixpoint collect_items (lines : list string) (items : list WmctrlItem)
  : Outcome (list WmctrlItem) :=
  match lines with
  | [] => Ok items
  | line :: lines' =>
      match unpack_line line with
      | Ok item => collect_items lines' (items ++ [item])
      | Raise e => Raise e
      end
  end.

Definition parse_listing (out : string) : Outcome (list WmctrlItem) :=
  collect_items (Py.split_char Py.newline (Py.strip out)) [].

Definition get_wmctrl_items : M (list WmctrlItem) :=
  out ← execute_command "wmctrl -l";
  lift (parse_listing out).

(** The loop of [try_get_wmctrl_item]; [None] stands for [(None, False)]. *)
Fixpoint first_match (is_target_title : string → bool)
    (items : list WmctrlItem) : option WmctrlItem :=
  match items with
  | [] => None
  | item :: items' =>
      if is_target_title (title item) then Some item
      else first_match is_target_title items'
  end.

Definition try_get_wmctrl_item (is_target_title : string → bool)
  : M (option WmctrlItem * bool) :=
  items ← get_wmctrl_items;
  match first_match is_target_title items with
  | Some item => mret (Some item, true)
  | None => mret (None, false)
  end.

(** [virt_manager_target_title(domain)] *)
Definition virt_manager_target_title (domain : string) : string → bool :=
  let target := domain +:+ " on QEMU/KVM" in
  λ title, String.eqb title target.

(** The [for _ in range(n)] loop of [open_virt_manager]. *)
Fixpoint focus_loop (domain : string) (n : nat) : M unit :=
  match n with
  | O => mret ()
  | S n' =>
      '(item, found) ← try_get_wmctrl_item (virt_manager_target_title domain);
      if found : bool then
        match item with
        | Some it => _ ← execute_command ("wmctrl -ia " +:+ window_id it); mret ()
        | None => raise AttributeError
        end
      else time_sleep 100;; focus_loop domain n'
  end.

Definition open_virt_manager (domain : string) : M unit :=
  _ ← execute_command
        ("virt-manager --connect=qemu:///system --show-domain-console="
         +:+ domain);
  focus_loop domain 10.

(** The loop of [is_window_open]. *)
Fixpoint any_line_matches (is_target_title : string → bool)
    (lines : list string) : Outcome bool :=
  match lines with
  | [] => Ok false
  | line :: lines' =>
      match Py.last_item (Py.split_ws 3 line) with
      | None => Raise IndexError
      | Some t =>
          if is_target_title t then Ok true
          else any_line_matches is_target_title lines'
      end
  end.

Definition window_open_in (is_target_title : string → bool) (out : string)
  : Outcome bool :=
  any_line_matches is_target_title (Py.split_char Py.newline (Py.strip out)).

Definition is_window_open (is_target_title : string → bool) : M bool :=
  out ← execute_command "wmctrl -l";
  lift (window_open_in is_target_title out).

Definition close_window (is_target_title : string → bool) : M unit :=
  items ← get_wmctrl_items;
  for_each items (λ item,
    if is_target_title (title item)
    then _ ← execute_command ("wmctrl -ic " +:+ window_id item); mret ()
    else mret ()).

Definition trigger_virt_manager (domain : string) : M unit :=
  open ← is_window_open (virt_manager_target_title domain);
  if open : bool then close_window (virt_manager_target_title domain)
  else open_virt_manager domain.

(** ** [LibvirtManager] *)

Record LibvirtManager : Type := {
  conn : Conn;
  show_message : string → M unit;
}.

(** [LibvirtManager(show_message)] *)
Definition LibvirtManager_init (show_message : string → M unit)
  : M LibvirtManager :=
  emit (Libvirt (LvOpen "qemu:///system"));;
  o ← act (lv_open "qemu:///system");
  c ← lift o;
  mret {| conn := c; show_message := show_message |}.

Definition get_save_path (domain : string) : string :=
  "/var/lib/libvirt/qemu/save/" +:+ domain +:+ ".save".

(** [self.conn.lookupByName(name)] *)
Definition lookupByName (self : LibvirtManager) (name : string) : M Dom :=
  emit (Libvirt (LvLookupByName name));;
  o ← ask (lv_lookupByName (conn self) name);
  lift o.

Definition save (self : LibvirtManager) (domain : string) : M unit :=
  show_message self ("saving " +:+ domain);;
  dom ← lookupByName self domain;
  emit (Libvirt (LvSave domain (get_save_path domain)));;
  o ← act (lv_save dom (get_save_path domain));
  lift o;;
  show_message self ("saved to " +:+ get_save_path domain).

Definition restore (self : LibvirtManager) (domain : string) : M unit :=
  show_message self ("restoring " +:+ domain);;
  emit (Libvirt (LvRestore (get_save_path domain)));;
  o ← act (lv_restore (conn self) (get_save_path domain));
  lift o;;
  show_message self ("restored from " +:+ get_save_path domain).

Definition is_saved (self : LibvirtManager) (domain : string) : M bool :=
  os_path_exists (get_save_path domain).

Definition is_running (self : LibvirtManager) (domain : string) : M bool :=
  dom ← lookupByName self domain;
  emit (Libvirt (LvIsActive domain));;
  o ← ask (lv_isActive dom);
  r ← lift o;
  mret (Z.eqb r 1).

Definition start (self : LibvirtManager) (domain : string) : M unit :=
  show_message self ("starting " +:+ domain);;
  dom ← lookupByName self domain;
  emit (Libvirt (LvCreate domain));;
  o ← act (lv_create dom);
  lift o;;
  show_message self ("started " +:+ domain).

Definition force_shutdown (self : LibvirtManager) (domain : string) : M unit :=
  show_message self ("force shutting down " +:+ domain);;
  dom ← lookupByName self domain;
  emit (Libvirt (LvDestroy domain));;
  o ← act (lv_destroy dom);
  lift o;;
  show_message self ("force shut down " +:+ domain).

(** ** Qt calls *)

Definition set_actions (f : list QAction → list QAction) : M unit :=
  λ s, {| outcome := Ok ();
          final := {| world := world s; actions := f (actions s);
                      trays := trays s |};
          emitted := [] |}.

Definition set_trays (f : list QSystemTrayIcon → list QSystemTrayIcon)
  : M unit :=
  λ s, {| outcome := Ok ();
          final := {| world := world s; actions := actions s;
                      trays := f (trays s) |};
          emitted := [] |}.

(** [QSystemTrayIcon(QIcon(path), app)]: the new object's index. *)
Definition new_tray_icon (path : string) : M nat :=
  λ s, {| outcome := Ok (length (trays s));
          final := {| world := world s; actions := actions s;
                      trays := trays s ++ [{| tray_icon := path; toolTip := "";
                                              contextMenu := None;
                                              visible := false |}] |};
          emitted := [] |}.

Definition setToolTip (t : nat) (tip : string) : M unit :=
  set_trays (alter (λ q, {| tray_icon := tray_icon q; toolTip := tip;
                            contextMenu := contextMenu q;
                            visible := visible q |}) t).

Definition setContextMenu (t : nat) (menu : list nat) : M unit :=
  set_trays (alter (λ q, {| tray_icon := tray_icon q; toolTip := toolTip q;
                            contextMenu := Some menu;
                            visible := visible q |}) t).

Definition show (t : nat) : M unit :=
  set_trays (alter (λ q, {| tray_icon := tray_icon q; toolTip := toolTip q;
                            contextMenu := contextMenu q;
                            visible := true |}) t).

(** [trayIcon.showMessage(title, msg, icon=NoIcon, msecs=msecs)] *)
Definition showMessage (t : nat) (title msg : string) (msecs : Z) : M unit :=
  emit (ShowMessage t title msg msecs).

(** [menu.addAction(text)]: a new action, enabled as Qt creates it. *)
Definition addAction (label : string) : M nat :=
  λ s, {| outcome := Ok (length (actions s));
          final := {| world := world s;
                      actions := actions s ++ [{| text := label;
                                                   enabled := true |}];
                      trays := trays s |};
          emitted := [] |}.

Definition setEnabled (a : nat) (b : bool) : M unit :=
  set_actions (alter (λ q, {| text := text q; enabled := b |}) a).

(** ** [VirtTray] *)

Record VirtTray : Type := { virt : LibvirtManager; config : Config }.

Definition save_all (self : VirtTray) : M unit :=
  for_each (items (config self)) (λ item,
    running ← is_running (virt self) (domain item);
    if running : bool then save (virt self) (domain item) else mret ()).

Definition restore_all (self : VirtTray) : M unit :=
  for_each (items (config self)) (λ item,
    saved ← is_saved (virt self) (domain item);
    if saved : bool then restore (virt self) (domain item) else mret ()).

(** What [create_tray_icon] leaves behind: the Qt objects it made, its local
    [virt] that the callables close over, and the callables it connected to
    the signals. *)
Record TrayIcon : Type := {
  trayIcon : nat;
  tray_virt : LibvirtManager;
  startAction : nat;
  forceShutdownAction : nat;
  saveAction : nat;
  restoreAction : nat;
  saveAllAction : nat;
  restoreAllAction : nat;
  quitAction : nat;
  start_triggered : M unit;
  forceShutdown_triggered : M unit;
  save_triggered : M unit;
  restore_triggered : M unit;
  saveAll_triggered : M unit;
  restoreAll_triggered : M unit;
  quit_triggered : M unit;
  activated : ActivationReason → M unit;
  aboutToShow : M unit;
}.

(** [virt.is_running(d) and not virt.is_saved(d)] *)
Definition running_and_not_saved (v : LibvirtManager) (d : string) : M bool :=
  running ← is_running v d;
  if running : bool then saved ← is_saved v d; mret (negb saved)
  else mret false.

(** The closure [update_menu] of [create_tray_icon]. *)
Definition update_menu (v : LibvirtManager)
    (startAction forceShutdownAction saveAction restoreAction : nat)
    (item : Item) : M unit :=
  print "update_menu";;
  running ← is_running v (domain item);
  setEnabled startAction (negb running);;
  running ← is_running v (domain item);
  setEnabled forceShutdownAction running;;
  b ← running_and_not_saved v (domain item);
  setEnabled saveAction b;;
  saved ← is_saved v (domain item);
  setEnabled restoreAction saved.

(** [create_tray_icon]: the tray icon, its session, the seven actions of
    the menu in the order they are added (the separator carries no state),
    and the connections. *)
Definition create_tray_icon (self : VirtTray) (item : Item) : M TrayIcon :=
  t ← new_tray_icon (icon item);
  setToolTip t (domain item);;
  v ← LibvirtManager_init (λ msg, showMessage t "Virtray" msg 3000);
  a_start ← addAction "Start";
  running ← is_running v (domain item);
  setEnabled a_start (negb running);;
  a_force ← addAction "Force Shutdown";
  running ← is_running v (domain item);
  setEnabled a_force running;;
  a_save ← addAction "Save";
  b ← running_and_not_saved v (domain item);
  setEnabled a_save b;;
  a_restore ← addAction "Restore";
  saved ← is_saved v (domain item);
  setEnabled a_restore saved;;
  a_save_all ← addAction "Save All";
  a_restore_all ← addAction "Restore All";
  a_quit ← addAction "Quit";
  setContextMenu t
    [a_start; a_force; a_save; a_restore; a_save_all; a_restore_all; a_quit];;
  show t;;
  mret {| trayIcon := t;
          tray_virt := v;
          startAction := a_start;
          forceShutdownAction := a_force;
          saveAction := a_save;
          restoreAction := a_restore;
          saveAllAction := a_save_all;
          restoreAllAction := a_restore_all;
          quitAction := a_quit;
          start_triggered := start v (domain item);
          forceShutdown_triggered := force_shutdown v (domain item);
          save_triggered := save v (domain item);
          restore_triggered := restore v (domain item);
          saveAll_triggered := save_all self;
          restoreAll_triggered := restore_all self;
          quit_triggered := emit AppQuit;
          activated := λ reason,
            match reason with
            | Trigger => trigger_virt_manager (domain item)
            | _ => mret ()
            end;
          aboutToShow := update_menu v a_start a_force a_save a_restore item |}.

(** The loop of [VirtTray.main]; the event loop that follows it fires the
    callables of the icons returned here. *)
Fixpoint create_tray_icons (self : VirtTray) (l : list Item)
  : M (list TrayIcon) :=
  match l with
  | [] => mret []
  | item :: l' =>
      t ← create_tray_icon self item;
      ts ← create_tray_icons self l';
      mret (t :: ts)
  end.

Definition VirtTray_main (self : VirtTray) : M (list TrayIcon) :=
  create_tray_icons self (items (config self)).

(** [main], with the configuration that [load_config] returned. *)
Definition main (cfg : Config) : M (list TrayIcon) :=
  v ← LibvirtManager_init print;
  VirtTray_main {| virt := v; config := cfg |}.

End Program.

Arguments outcome {_ _} r.
Arguments final {_ _} r.
Arguments emitted {_ _} r.

(** ** A simulated host

    A small instance of [Env] on which the program can be run: the window
    manager answers [wmctrl -l] with scripted listings (the last one stays),
    save files are named by path and hold the name of the domain they were
    taken from ([None] for a file that is no domain image), and libvirt knows
    the domains of [sim_domains] together with whether each is active. *)
Module Sim.

Record SimWorld : Type := {
  sim_listings : list string;
  sim_files : gmap string (option string);
  sim_domains : gmap string bool;
}.

Definition sim_shell (command : string) (w : SimWorld) : string * SimWorld :=
  if String.eqb command "wmctrl -l" then
    match sim_listings w with
    | [] => ("", w)
    | [out] => (out, w)
    | out :: rest =>
        (out, {| sim_listings := rest; sim_files := sim_files w;
                 sim_domains := sim_domains w |})
    end
  else ("", w).

Definition sim_exists (p : string) (w : SimWorld) : bool :=
  match sim_files w !! p with Some _ => true | None => false end.

Definition sim_lookup (_ : unit) (name : string) (w : SimWorld)
  : Outcome string :=
  match sim_domains w !! name with
  | Some _ => Ok name
  | None => Raise LibvirtError
  end.

Definition sim_isActive (d : string) (w : SimWorld) : Outcome Z :=
  match sim_domains w !! d with
  | Some true => Ok 1%Z
  | Some false => Ok 0%Z
  | None => Raise LibvirtError
  end.

Definition sim_set_active (d : string) (from to : bool) (w : SimWorld)
  : Outcome unit * SimWorld :=
  match sim_domains w !! d with
  | Some b =>
      if Bool.eqb b from then
        (Ok (), {| sim_listings := sim_listings w; sim_files := sim_files w;
                   sim_domains := <[d := to]> (sim_domains w) |})
      else (Raise LibvirtError, w)
  | None => (Raise LibvirtError, w)
  end.

Definition sim_save (d p : string) (w : SimWorld) : Outcome unit * SimWorld :=
  match sim_domains w !! d with
  | Some true =>
      (Ok (), {| sim_listings := sim_listings w;
                 sim_files := <[p := Some d]> (sim_files w);
                 sim_domains := <[d := false]> (sim_domains w) |})
  | _ => (Raise LibvirtError, w)
  end.

Definition sim_restore (_ : unit) (p : string) (w : SimWorld)
  : Outcome unit * SimWorld :=
  match sim_files w !! p with
  | Some (Some d) =>
      match sim_domains w !! d with
      | Some false =>
          (Ok (), {| sim_listings := sim_listings w;
                     sim_files := delete p (sim_files w);
                     sim_domains := <[d := true]> (sim_domains w) |})
      | _ => (Raise LibvirtError, w)
      end
  | _ => (Raise LibvirtError, w)
  end.

#[export] Instance sim_env : Env.
Proof.
  refine {| World := SimWorld;
            Conn := unit;
            Dom := string;
            shell := sim_shell;
            sleep := λ _ w, w;
            path_exists := sim_exists;
            lv_open := λ _ w, (Ok (), w);
            lv_lookupByName := sim_lookup;
            lv_isActive := sim_isActive;
            lv_create := λ d, sim_set_active d false true;
            lv_destroy := λ d, sim_set_active d true false;
            lv_save := sim_save;
            lv_restore := sim_restore |}.
  - intros d p w w'. unfold sim_save, sim_exists.
    destruct (sim_domains w !! d) as [[]|]; intros [=]; subst; simpl.
    by rewrite lookup_insert_eq.
  - intros c p w w'. unfold sim_restore, sim_exists.
    destruct (sim_files w !! p) as [[d|]|]; try (intros [=]; fail).
    destruct (sim_domains w !! d) as [[]|]; intros [=] q Hq; subst; simpl.
    by rewrite lookup_delete_ne.
Defined.

(** A session on the simulated host. *)
Definition manager (sink : string → M unit) : LibvirtManager :=
  {| conn := (); show_message := sink |}.

(** A host with the given windows, save files and domains, and no Qt object
    yet. *)
Definition host (listings : list string)
    (files : list (string * option string))
    (domains : list (string * bool)) : State :=
  {| world := {| sim_listings := listings;
                 sim_files := list_to_map files;
                 sim_domains := list_to_map domains |};
     actions := [];
     trays := [] |}.

End Sim.

(** ** Vocabulary of the properties *)
Section Vocabulary.
Context `{Env}.

(** The tray orchestrator of session [v] over the domains of [l]. *)
Definition tray_of (v : LibvirtManager) (l : list Item) : VirtTray :=
  {| virt := v; config := {| items := l |} |}.

(** The paths handed to libvirt's restore, in order. *)
Fixpoint restores (evs : list Event) : list string :=
  match evs with
  | [] => []
  | Libvirt (LvRestore p) :: evs' => p :: restores evs'
  | _ :: evs' => restores evs'
  end.

(** The two global menu actions. *)
Inductive Batch : Type := SaveAll | RestoreAll.

Definition run_batch (b : Batch) (self : VirtTray) : M unit :=
  match b with
  | SaveAll => save_all self
  | RestoreAll => restore_all self
  end.

(** One turn of the loop of [restore_all]. *)
Definition restore_turn (v : LibvirtManager) (item : Item) : M unit :=
  saved ← is_saved v (domain item);
  if saved : bool then restore v (domain item) else mret ().

(** The state after one [wmctrl -l]. *)
Definition listed (s : State) : State :=
  {| world := snd (shell "wmctrl -l" (world s));
     actions := actions s; trays := trays s |}.

Definition launch_command (d : string) : string :=
  "virt-manager --connect=qemu:///system --show-domain-console=" +:+ d.

(** What one attempt of the loop finds in world [w]. *)
Definition attempt (d : string) (w : World) : Outcome (option WmctrlItem) :=
  match parse_listing (fst (shell "wmctrl -l" w)) with
  | Ok items => Ok (first_match (virt_manager_target_title d) items)
  | Raise e => Raise e
  end.

(** The world after an attempt that found nothing: the listing was taken and
    100 ms were slept. *)
Definition after_attempt (w : World) : World :=
  sleep 100 (snd (shell "wmctrl -l" w)).

Fixpoint after_attempts (k : nat) (w : World) : World :=
  match k with
  | O => w
  | S k' => after_attempts k' (after_attempt w)
  end.

(** The events of [k] attempts that found nothing. *)
Fixpoint rounds (k : nat) : list Event :=
  match k with
  | O => []
  | S k' => Exec "wmctrl -l" :: Sleep 100 :: rounds k'
  end.

(** Milliseconds slept. *)
Fixpoint slept (evs : list Event) : Z :=
  match evs with
  | [] => 0
  | Sleep ms :: evs' => ms + slept evs'
  | _ :: evs' => slept evs'
  end.

(** Executions of [command]. *)
Fixpoint executions (command : string) (evs : list Event) : nat :=
  match evs with
  | [] => 0
  | Exec c :: evs' =>
      (if String.eqb c command then 1 else 0) + executions command evs'
  | _ :: evs' => executions command evs'
  end.

Definition with_world (s : State) (w : World) : State :=
  {| world := w; actions := actions s; trays := trays s |}.

(** How a run of the focus loop ends, when its first [k] attempts found
    nothing: attempt [k + 1] finds the window, activates it and the loop ends;
    or that attempt cannot read the listing and its exception leaves the loop;
    or all [n] attempts are used up and the loop ends with nothing done. *)
Definition focus_ending (d : string) (n k : nat) (w : World)
    (o : Outcome unit) (tail : list Event) : Prop :=
  (k < n ∧ ∃ it, attempt d (after_attempts k w) = Ok (Some it)
                 ∧ o = Ok ()
                 ∧ tail = [Exec "wmctrl -l";
                           Exec ("wmctrl -ia " +:+ window_id it)])
  ∨ (k < n ∧ ∃ e, attempt d (after_attempts k w) = Raise e
                  ∧ o = Raise e ∧ tail = [Exec "wmctrl -l"])
  ∨ (k = n ∧ o = Ok () ∧ tail = []).

(** The close commands for the windows of [items] titled [target]. *)
Definition close_commands (target : string) (items : list WmctrlItem)
  : list Event :=
  (λ item, Exec ("wmctrl -ic " +:+ window_id item))
    <$> filter (λ item, title item = target) items.

(** One turn of the loop of [close_window]. *)
Definition close_turn (d : string) (item : WmctrlItem) : M unit :=
  if virt_manager_target_title d (title item)
  then _ ← execute_command ("wmctrl -ic " +:+ window_id item); mret ()
  else mret ().

Definition emits {A} (P : Event → Prop) (m : M A) : Prop :=
  ∀ s, Forall P (emitted (m s)).

(** The sink that [create_tray_icon] gives to the session of tray [t]. *)
Definition tray_sink (t : nat) : string → M unit :=
  λ msg, showMessage t "Virtray" msg 3000.

Record built (self : VirtTray) (item : Item) (s : State) (ic : TrayIcon)
  : Prop := {
  built_tray : trayIcon ic = length (trays s);
  built_sink : show_message (tray_virt ic) = tray_sink (trayIcon ic);
  built_start : startAction ic = length (actions s);
  built_force : forceShutdownAction ic = S (length (actions s));
  built_save : saveAction ic = S (S (length (actions s)));
  built_restore : restoreAction ic = S (S (S (length (actions s))));
  built_on_start : start_triggered ic = start (tray_virt ic) (domain item);
  built_on_force :
    forceShutdown_triggered ic = force_shutdown (tray_virt ic) (domain item);
  built_on_save : save_triggered ic = save (tray_virt ic) (domain item);
  built_on_restore : restore_triggered ic = restore (tray_virt ic) (domain item);
  built_on_save_all : saveAll_triggered ic = save_all self;
  built_on_restore_all : restoreAll_triggered ic = restore_all self;
  built_on_show :
    aboutToShow ic
    = update_menu (tray_virt ic) (startAction ic) (forceShutdownAction ic)
        (saveAction ic) (restoreAction ic) item;
  built_on_activated :
    activated ic Trigger = trigger_virt_manager (domain item);
}.

(** [runs m s a s']: from [s], [m] returns [a] and leaves [s']. *)
Definition runs {A} (m : M A) (s : State) (a : A) (s' : State) : Prop :=
  outcome (m s) = Ok a ∧ final (m s) = s'.

(** [post m s Q]: when [m] returns from [s], [Q] holds of what it returns
    and leaves. *)
Definition post {A} (m : M A) (s : State) (Q : A → State → Prop) : Prop :=
  ∀ a, outcome (m s) = Ok a → Q a (final (m s)).

Definition set_flag (b : bool) (q : QAction) : QAction :=
  {| text := text q; enabled := b |}.

(** No notification through a tray icon. *)
Definition not_tray_message (e : Event) : Prop :=
  match e with ShowMessage _ _ _ _ => False | _ => True end.

(** No line printed, and tray notifications only on tray [t], titled
    ["Virtray"] and shown for three seconds. *)
Definition tray_message_of (t : nat) (e : Event) : Prop :=
  match e with
  | Stdout _ => False
  | ShowMessage t' caption _ msecs =>
      t' = t ∧ caption = "Virtray" ∧ msecs = 3000%Z
  | _ => True
  end.

End Vocabulary.

(** ** The shape of a [wmctrl -l] line *)

(** Only whitespace. *)
Fixpoint blank (s : string) : bool :=
  match s with
  | EmptyString => true
  | String c r => Py.is_space c && blank r
  end.

(** No whitespace. *)
Fixpoint solid (s : string) : bool :=
  match s with
  | EmptyString => true
  | String c r => negb (Py.is_space c) && solid r
  end.

Definition nonempty (s : string) : bool :=
  match s with EmptyString => false | String _ _ => true end.

(** A field: at least one character, none of them whitespace. *)
Definition is_field (s : string) : bool := nonempty s && solid s.

(** What separates two fields: at least one character, all whitespace. *)
Definition is_gap (s : string) : bool := nonempty s && blank s.

(** A title: not empty, and no whitespace at its start. *)
Definition is_title (s : string) : bool :=
  match s with
  | EmptyString => false
  | String c _ => negb (Py.is_space c)
  end.

Definition starts_blank (s : string) : bool :=
  match s with
  | EmptyString => true
  | String c _ => Py.is_space c
  end.

(** [line] is: the window id, two more fields, and the title, which runs to
    the end of the line. *)
Definition is_record (line : string) (item : WmctrlItem) : Prop :=
  ∃ g0 g1 f2 g2 f3 g3 : string,
    line = g0 +:+ window_id item +:+ g1 +:+ f2 +:+ g2 +:+ f3 +:+ g3
           +:+ title item
    ∧ blank g0 = true
    ∧ is_field (window_id item) = true ∧ is_gap g1 = true
    ∧ is_field f2 = true ∧ is_gap g2 = true
    ∧ is_field f3 = true ∧ is_gap g3 = true
    ∧ is_title (title item) = true.

(** The line reading that C4 words: the id, one ignored field, and the rest
    of the line as title. *)
Definition unpack_line_two_fields (line : string) : Outcome WmctrlItem :=
  match Py.split_ws 2 line with
  | [w; _; t] => Ok {| window_id := w; title := t |}
  | _ => Raise ValueError
  end.

(** Whether a call returned, rather than raised. *)
Definition returned {A} (o : Outcome A) : bool :=
  match o with Ok _ => true | Raise _ => false end.

(** The icons of a run of [main], none when it raised. *)
Definition icons_of {E : Env} (r : Res (list TrayIcon)) : list TrayIcon :=
  match outcome r with Ok icons => icons | Raise _ => [] end.

(** ** Scenarios on the simulated host *)

Definition item_web01 : Item := {| icon := "web01.png"; domain := "web01" |}.

Definition config_web01 : Config := {| items := [item_web01] |}.

(** The scenario of C9 on the simulated host: ["web01"] is running and has
    no save file. *)
Definition web01_running : State :=
  Sim.host [] [] [("web01", true)].

(** The scenario of the spec: ["web01"] is configured, not running, and has
    no save file. *)
Definition web01_stopped : State :=
  Sim.host [] [] [("web01", false)].

Definition items_a_b : list Item :=
  [ {| icon := "a.png"; domain := "a" |};
    {| icon := "b.png"; domain := "b" |} ].

(** Two configured domains with a save file each, neither running; the file
    of ["a"] is no domain image, so libvirt refuses to restore it. *)
Definition a_unreadable_b_saved : State :=
  Sim.host []
    [ ("/var/lib/libvirt/qemu/save/a.save", None);
      ("/var/lib/libvirt/qemu/save/b.save", Some "b") ]
    [ ("a", false); ("b", false) ].

Definition items_a_b_c : list Item :=
  [ {| icon := "a.png"; domain := "a" |};
    {| icon := "b.png"; domain := "b" |};
    {| icon := "c.png"; domain := "c" |} ].

(** The scenario of C8: ["a"] and ["c"] have a save file, ["b"] has none. *)
Definition a_saved_b_not_c_saved : State :=
  Sim.host []
    [ ("/var/lib/libvirt/qemu/save/a.save", Some "a");
      ("/var/lib/libvirt/qemu/save/c.save", Some "c") ]
    [ ("a", false); ("b", false); ("c", false) ].

(** Two consoles of ["web01"] and a terminal are open. *)
Definition two_consoles_open : State :=
  Sim.host
    [ "0x01600003  0 myhost web01 on QEMU/KVM
0x02000007  0 myhost Terminal
0x01600009  0 myhost web01 on QEMU/KVM" ] [] [].

(** The console window of ["web01"] shows up in the third listing. *)
Definition console_appears_third : State :=
  Sim.host
    [ "0x02000007  0 myhost Terminal";
      "0x02000007  0 myhost Terminal";
      "0x02000007  0 myhost Terminal
0x01600003  0 myhost web01 on QEMU/KVM" ] [] [].

(** No console window ever shows up. *)
Definition console_never_appears : State :=
  Sim.host [ "0x02000007  0 myhost Terminal" ] [] [].

(** ** Further vocabulary *)
Section Effects.
Context `{Env}.

(** A sink that records one event per message. *)
Definition notifies_with (note : string → Event) (v : LibvirtManager) : Prop :=
  ∀ msg, show_message v msg = emit (note msg).

(** [yields m s o s' evs]: from [s], [m] ends with [o], leaves [s'] and
    has emitted [evs]. *)
Definition yields {A} (m : M A) (s : State) (o : Outcome A) (s' : State)
    (evs : list Event) : Prop :=
  m s = {| outcome := o; final := s'; emitted := evs |}.

(** The effects of the window functions for domain [d]: the four commands
    and the 100 ms sleep. *)
Definition window_effect (d : string) (e : Event) : Prop :=
  e = Sleep 100
  ∨ e = Exec "wmctrl -l"
  ∨ e = Exec (launch_command d)
  ∨ ∃ id, e = Exec ("wmctrl -ia " +:+ id) ∨ e = Exec ("wmctrl -ic " +:+ id).

Definition no_sleep (e : Event) : Prop :=
  match e with Sleep _ => False | _ => True end.

(** [m] leaves the Qt objects as they are. *)
Definition keeps_qt {A} (m : M A) : Prop :=
  ∀ s, actions (final (m s)) = actions s ∧ trays (final (m s)) = trays s.

(** What holds of the events and of the Qt objects alike. *)
Definition tame (P : Event → Prop) {A} (m : M A) : Prop :=
  emits P m ∧ keeps_qt m.

(** No shell command and no sleep. *)
Definition no_command (e : Event) : Prop :=
  match e with Exec _ | Sleep _ => False | _ => True end.

(** [ends m s Qok Qerr]: if [m] returns from [s], [Qok] holds of its value
    and final state; if it raises, [Qerr] holds of the exception and the
    final state. *)
Definition ends {A} (m : M A) (s : State) (Qok : A → State → Prop)
    (Qerr : Exn → State → Prop) : Prop :=
  match outcome (m s) with
  | Ok a => Qok a (final (m s))
  | Raise e => Qerr e (final (m s))
  end.

(** The seven actions of a tray menu, as [create_tray_icon] leaves them for a
    domain that is [running] and [saved]. *)
Definition menu_of (running saved : bool) : list QAction :=
  [ {| text := "Start"; enabled := negb running |};
    {| text := "Force Shutdown"; enabled := running |};
    {| text := "Save"; enabled := running && negb saved |};
    {| text := "Restore"; enabled := saved |};
    {| text := "Save All"; enabled := true |};
    {| text := "Restore All"; enabled := true |};
    {| text := "Quit"; enabled := true |} ].

(** The action ids of an icon, in menu order. *)
Definition menu_ids (ic : TrayIcon) : list nat :=
  [ startAction ic; forceShutdownAction ic; saveAction ic; restoreAction ic;
    saveAllAction ic; restoreAllAction ic; quitAction ic ].

(** What [create_tray_icon] has done when it returns [ic], from [s] to
    [s']. *)
Definition installed (item : Item) (s : State) (ic : TrayIcon) (s' : State)
  : Prop :=
  ∃ running : bool,
    outcome (is_running (tray_virt ic) (domain item) s') = Ok running
    ∧ actions s'
      = actions s
        ++ menu_of running
             (path_exists (get_save_path (domain item)) (world s'))
    ∧ trays s'
      = trays s
        ++ [ {| tray_icon := icon item; toolTip := domain item;
                contextMenu := Some (menu_ids ic); visible := true |} ]
    ∧ trayIcon ic = length (trays s)
    ∧ menu_ids ic = seq (length (actions s)) 7
    ∧ (∀ reason, reason ≠ Trigger → activated ic reason = mret ())
    ∧ quit_triggered ic = emit AppQuit.

(** What [create_tray_icon] leaves when it raises: the tray icon it made,
    with its tooltip, without a menu, not shown. *)
Definition abandoned (item : Item) (s s' : State) : Prop :=
  trays s'
  = trays s
    ++ [ {| tray_icon := icon item; toolTip := domain item;
            contextMenu := None; visible := false |} ].

End Effects.

(** The exception a call ended with, if any. *)
Definition exception_of {A} (o : Outcome A) : option Exn :=
  match o with Ok _ => None | Raise e => Some e end.

(** An environment like [E] in which the hypervisor cannot be reached. *)
Definition offline (E : Env) : Env :=
  {| World := @World E;
     Conn := @Conn E;
     Dom := @Dom E;
     shell := @shell E;
     sleep := @sleep E;
     path_exists := @path_exists E;
     lv_open := λ _ w, (Raise LibvirtError, w);
     lv_lookupByName := @lv_lookupByName E;
     lv_isActive := @lv_isActive E;
     lv_create := @lv_create E;
     lv_destroy := @lv_destroy E;
     lv_save := @lv_save E;
     lv_restore := @lv_restore E;
     lv_save_writes := @lv_save_writes E;
     lv_restore_frame := @lv_restore_frame E |}.

(** The simulated host with ["web01"] stopped, the hypervisor unreachable. *)
Definition web01_offline : @State (offline Sim.sim_env) :=
  @Build_State (offline Sim.sim_env) (world web01_stopped) [] [].

(** * Properties *)

Example split_ws_wmctrl :
  Py.split_ws 3 "0x01  0 host  a  b " = ["0x01"; "0"; "host"; "a  b "].
Proof. reflexivity. Qed.

Example split_ws_short : Py.split_ws 3 " 0x01 0 host  " = ["0x01"; "0"; "host"].
Proof. reflexivity. Qed.

Example split_char_empty : Py.split_char Py.newline "" = [""].
Proof. reflexivity. Qed.

(** ** Running programs: equations of the monad *)
Section Facts.
Context `{Env}.

Lemma bind_ok {A B} (m : M A) (k : A → M B) s a :
  outcome (m s) = Ok a →
  (m ≫= k) s =
    {| outcome := outcome (k a (final (m s)));
       final := final (k a (final (m s)));
       emitted := emitted (m s) ++ emitted (k a (final (m s))) |}.
Proof.
  intros Ha. unfold mbind, M_bind, bind. cbv zeta. by rewrite Ha.
Qed.

Lemma bind_raise {A B} (m : M A) (k : A → M B) s e :
  outcome (m s) = Raise e →
  (m ≫= k) s =
    {| outcome := Raise e; final := final (m s); emitted := emitted (m s) |}.
Proof.
  intros Ha. unfold mbind, M_bind, bind. cbv zeta. by rewrite Ha.
Qed.

Lemma bind_emitted_prefix {A B} (m : M A) (k : A → M B) s :
  ∃ rest, emitted ((m ≫= k) s) = emitted (m s) ++ rest.
Proof.
  destruct (outcome (m s)) as [a|e] eqn:E.
  - rewrite (bind_ok _ _ _ _ E). simpl. eauto.
  - rewrite (bind_raise _ _ _ _ E). simpl. exists []. by rewrite app_nil_r.
Qed.

(** [for_each] over a concatenation runs the first part, then the second. *)
Lemma for_each_app {A} (l1 l2 : list A) (body : A → M unit) s :
  for_each (l1 ++ l2) body s = (for_each l1 body;; for_each l2 body) s.
Proof.
  revert s. induction l1 as [|x l1 IH]; intros s; simpl.
  - unfold mbind, M_bind, bind, mret, M_ret, ret; simpl.
    by destruct (for_each l2 body s).
  - unfold mbind, M_bind, bind in *. cbv zeta in *.
    destruct (outcome (body x s)); [|done].
    rewrite IH. destruct (outcome (for_each l1 body _)); simpl; [|done].
    by rewrite app_assoc.
Qed.

End Facts.

(** ** [LibvirtManager]: the save file *)
Section Session.
Context `{Env}.

(** C2. [is_saved] answers with the existence, at the moment of the call, of
    the file at the fixed path [/var/lib/libvirt/qemu/save/{D}.save]: it
    returns without an exception, leaves every state as it was, makes no
    libvirt call (it emits nothing), and does not depend on the session's
    connection. *)
Theorem is_saved_is_file_existence (self : LibvirtManager) (d : string)
    (s : State) :
  outcome (is_saved self d s)
    = Ok (path_exists ("/var/lib/libvirt/qemu/save/" +:+ d +:+ ".save")
            (world s))
  ∧ final (is_saved self d s) = s
  ∧ emitted (is_saved self d s) = []
  ∧ ∀ other : LibvirtManager, is_saved other d s = is_saved self d s.
Proof. by repeat split. Qed.

Lemma lookupByName_run self d s :
  lookupByName self d s =
    {| outcome := lv_lookupByName (conn self) d (world s);
       final := s;
       emitted := [Libvirt (LvLookupByName d)] |}.
Proof.
  unfold lookupByName, mbind, M_bind, bind, emit, ask, lift; simpl.
  by destruct (lv_lookupByName (conn self) d (world s)).
Qed.

Lemma is_running_ok_lookup self d s b :
  outcome (is_running self d s) = Ok b →
  ∃ h, lv_lookupByName (conn self) d (world s) = Ok h.
Proof.
  unfold is_running. intros Hb.
  destruct (lv_lookupByName (conn self) d (world s)) as [h|e] eqn:E; [eauto|].
  rewrite (bind_raise _ _ _ e) in Hb; [done|].
  by rewrite lookupByName_run.
Qed.

(** C9. [save(D)] on a running domain, when libvirt's save succeeds, emits
    two notifications through the session's sink: ["saving D"] before the
    lookup and the save call, and
    ["saved to /var/lib/libvirt/qemu/save/D.save"] after them; it returns
    without an exception and [is_saved(D)] then answers true. *)
Theorem save_notifies_twice_then_saved (self : LibvirtManager) (d : string)
    (s : State) (note : string → Event) (h : Dom) (w' : World) :
  (∀ msg, show_message self msg = emit (note msg)) →
  outcome (is_running self d s) = Ok true →
  lv_lookupByName (conn self) d (world s) = Ok h →
  lv_save h (get_save_path d) (world s) = (Ok (), w') →
  outcome (save self d s) = Ok ()
  ∧ emitted (save self d s)
      = [ note ("saving " +:+ d);
          Libvirt (LvLookupByName d);
          Libvirt (LvSave d ("/var/lib/libvirt/qemu/save/" +:+ d +:+ ".save"));
          note ("saved to /var/lib/libvirt/qemu/save/" +:+ d +:+ ".save") ]
  ∧ world (final (save self d s)) = w'
  ∧ outcome (is_saved self d (final (save self d s))) = Ok true.
Proof.
  intros Hsink _ Hh Hsave.
  assert (Hex := lv_save_writes _ _ _ _ Hsave).
  unfold save, is_saved, os_path_exists.
  rewrite !Hsink.
  unfold mbind, M_bind, bind, emit, ask, act, lift, lookupByName; simpl.
  rewrite Hh; simpl. rewrite Hsave; simpl.
  by rewrite Hex.
Qed.

End Session.

Lemma save_notifies_twice_then_saved_witness :
  outcome (save (Sim.manager print) "web01" web01_running) = Ok ()
  ∧ emitted (save (Sim.manager print) "web01" web01_running)
      = [ Stdout "saving web01";
          Libvirt (LvLookupByName "web01");
          Libvirt (LvSave "web01" "/var/lib/libvirt/qemu/save/web01.save");
          Stdout "saved to /var/lib/libvirt/qemu/save/web01.save" ]
  ∧ outcome (is_saved (Sim.manager print) "web01"
               (final (save (Sim.manager print) "web01" web01_running)))
      = Ok true.
Proof.
  destruct (save_notifies_twice_then_saved (Sim.manager print) "web01"
              web01_running Stdout "web01"
              (snd (Sim.sim_save "web01" (get_save_path "web01")
                      (world web01_running))))
    as (Ho & He & _ & Hs).
  - reflexivity.
  - vm_compute. reflexivity.
  - vm_compute. reflexivity.
  - vm_compute. reflexivity.
  - exact (conj Ho (conj He Hs)).
Defined.

(** ** The save path names its domain *)

Lemma string_length_app (s t : string) :
  String.length (s +:+ t) = String.length s + String.length t.
Proof. induction s as [|c s IH]; simpl; [done | by rewrite IH]. Qed.

Lemma string_app_cancel_r (s1 s2 t : string) :
  s1 +:+ t = s2 +:+ t → s1 = s2.
Proof.
  revert s2. induction s1 as [|c s1 IH]; intros [|c2 s2] Heq; simpl in *.
  - done.
  - apply (f_equal String.length) in Heq.
    rewrite !string_length_app in Heq. simpl in Heq.
    rewrite ?string_length_app in Heq. lia.
  - apply (f_equal String.length) in Heq.
    rewrite !string_length_app in Heq. simpl in Heq.
    rewrite ?string_length_app in Heq. lia.
  - injection Heq as -> Heq. f_equal. by apply IH.
Qed.

Lemma get_save_path_inj `{Env} (d1 d2 : string) :
  get_save_path d1 = get_save_path d2 → d1 = d2.
Proof.
  unfold get_save_path. intros Heq.
  apply String.app_inj in Heq. by apply string_app_cancel_r in Heq.
Qed.

(** ** Save All and Restore All *)
Section Batch.
Context `{Env}.

Lemma restores_app (e1 e2 : list Event) :
  restores (e1 ++ e2) = restores e1 ++ restores e2.
Proof.
  induction e1 as [|e e1 IH]; simpl; [done|].
  destruct e as [| | | |[]|]; simpl; by rewrite ?IH.
Qed.

Lemma for_each_stops {A} (l1 l2 : list A) (x : A) (body : A → M unit) s e :
  outcome (for_each l1 body s) = Ok () →
  outcome (body x (final (for_each l1 body s))) = Raise e →
  outcome (for_each (l1 ++ x :: l2) body s) = Raise e
  ∧ final (for_each (l1 ++ x :: l2) body s)
      = final (body x (final (for_each l1 body s)))
  ∧ emitted (for_each (l1 ++ x :: l2) body s)
      = emitted (for_each l1 body s)
        ++ emitted (body x (final (for_each l1 body s))).
Proof.
  intros H1 Hx. rewrite for_each_app, (bind_ok _ _ _ _ H1). simpl.
  by rewrite (bind_raise _ _ _ _ Hx).
Qed.

Lemma for_each_single {A} (x : A) (body : A → M unit) s :
  for_each [x] body s = body x s.
Proof.
  simpl. unfold mbind, M_bind, bind, ret. cbv zeta.
  destruct (body x s) as [[[]|e] f ev]; simpl; [|done].
  by rewrite app_nil_r.
Qed.

(** C3, as the code has it. Save All and Restore All go through the
    configured domains in configuration order and stop at the first
    per-domain failure: when the domains of [l1] went through and the turn of
    the next domain raises, the batch raises that exception there and then,
    whatever domains [l2] follow, so none of them is processed. *)
Theorem batch_stops_at_first_failure (b : Batch) (v : LibvirtManager)
    (l1 l2 : list Item) (item : Item) (s : State) (e : Exn) :
  outcome (run_batch b (tray_of v l1) s) = Ok () →
  outcome (run_batch b (tray_of v [item])
             (final (run_batch b (tray_of v l1) s))) = Raise e →
  outcome (run_batch b (tray_of v (l1 ++ item :: l2)) s) = Raise e
  ∧ final (run_batch b (tray_of v (l1 ++ item :: l2)) s)
      = final (run_batch b (tray_of v [item])
                 (final (run_batch b (tray_of v l1) s)))
  ∧ emitted (run_batch b (tray_of v (l1 ++ item :: l2)) s)
      = emitted (run_batch b (tray_of v l1) s)
        ++ emitted (run_batch b (tray_of v [item])
                      (final (run_batch b (tray_of v l1) s))).
Proof.
  destruct b; unfold run_batch, save_all, restore_all, tray_of;
    cbn [items config virt];
    intros H1 Hx; rewrite for_each_single in Hx |- *;
    exact (for_each_stops l1 l2 item _ s e H1 Hx).
Qed.

End Batch.

(** C3 as stated fails: the restore of ["a"] raises, the batch ends there,
    and ["b"], whose save file exists, is never restored. *)
Lemma restore_all_abandons_the_rest :
  outcome (restore_all (tray_of (Sim.manager print) items_a_b)
             a_unreadable_b_saved) = Raise LibvirtError
  ∧ emitted (restore_all (tray_of (Sim.manager print) items_a_b)
               a_unreadable_b_saved)
      = [ Stdout "restoring a";
          Libvirt (LvRestore "/var/lib/libvirt/qemu/save/a.save") ]
  ∧ outcome (is_saved (Sim.manager print) "b"
               (final (restore_all (tray_of (Sim.manager print) items_a_b)
                         a_unreadable_b_saved))) = Ok true.
Proof. vm_compute. done. Qed.

Lemma batch_stops_at_first_failure_witness :
  outcome (run_batch RestoreAll (tray_of (Sim.manager print) ([] ++ items_a_b))
             a_unreadable_b_saved) = Raise LibvirtError.
Proof.
  refine (proj1 (batch_stops_at_first_failure RestoreAll (Sim.manager print)
                   [] [ {| icon := "b.png"; domain := "b" |} ]
                   {| icon := "a.png"; domain := "a" |}
                   a_unreadable_b_saved LibvirtError _ _)).
  - vm_compute. reflexivity.
  - vm_compute. reflexivity.
Defined.

Section RestoreAll.
Context `{Env}.

Lemma restore_run (v : LibvirtManager) (d : string) (s : State) :
  show_message v = print →
  restores (emitted (restore v d s)) = [get_save_path d]
  ∧ (outcome (restore v d s) = Ok () →
     lv_restore (conn v) (get_save_path d) (world s)
       = (Ok (), world (final (restore v d s)))).
Proof.
  intros Hp. unfold restore. rewrite Hp.
  unfold mbind, M_bind, bind, print, emit, act, lift; simpl.
  destruct (lv_restore (conn v) (get_save_path d) (world s)) as [[[]|e] w'];
    simpl; by split.
Qed.

Lemma filter_saved_frame (l : list string) (d : string) (w w' : World) c :
  lv_restore c (get_save_path d) w = (Ok (), w') →
  d ∉ l →
  List.filter (λ x, path_exists (get_save_path x) w') l
  = List.filter (λ x, path_exists (get_save_path x) w) l.
Proof.
  intros Hr. induction l as [|x l IH]; intros Hd; simpl; [done|].
  apply not_elem_of_cons in Hd as [Hne Hd].
  rewrite (lv_restore_frame _ _ _ _ Hr (get_save_path x)).
  - by rewrite IH.
  - intros Heq. by apply get_save_path_inj in Heq.
Qed.

Lemma restore_turn_run (v : LibvirtManager) (item : Item) (s : State) :
  restore_turn v item s
  = if path_exists (get_save_path (domain item)) (world s)
    then restore v (domain item) s
    else {| outcome := Ok (); final := s; emitted := [] |}.
Proof.
  unfold restore_turn, is_saved, os_path_exists, ask, mbind, M_bind, bind.
  cbn zeta. cbn [outcome final emitted].
  destruct (path_exists _ _); [|done].
  by destruct (restore v (domain item) s).
Qed.

Lemma restore_loop_restores (v : LibvirtManager) (l : list Item) (s : State) :
  show_message v = print →
  NoDup (domain <$> l) →
  let r := for_each l (restore_turn v) s in
  let saved :=
    List.filter (λ d, path_exists (get_save_path d) (world s)) (domain <$> l) in
  restores (emitted r) `prefix_of` (get_save_path <$> saved)
  ∧ (outcome r = Ok () → restores (emitted r) = get_save_path <$> saved).
Proof.
  intros Hp. revert s. induction l as [|item l IH]; intros s Hnd; cbn zeta.
  { simpl. split; [apply prefix_nil | done]. }
  rewrite fmap_cons in Hnd. apply NoDup_cons in Hnd as [Hnotin Hnd].
  change (for_each (item :: l) (restore_turn v) s)
    with ((restore_turn v item ≫= λ _, for_each l (restore_turn v)) s).
  rewrite fmap_cons. cbn [List.filter].
  pose proof (restore_turn_run v item s) as Hturn.
  destruct (path_exists (get_save_path (domain item)) (world s)) eqn:Hex.
  - destruct (restore_run v (domain item) s Hp) as [Hev Hok].
    rewrite <- Hturn in Hev, Hok.
    destruct (outcome (restore_turn v item s)) as [[]|e] eqn:Ho.
    + specialize (Hok eq_refl).
      rewrite (bind_ok _ _ _ _ Ho). cbn [outcome emitted].
      rewrite restores_app, Hev.
      destruct (IH (final (restore_turn v item s)) Hnd) as [IHp IHe].
      cbn zeta in IHp, IHe.
      rewrite (filter_saved_frame _ _ _ _ _ Hok Hnotin) in IHp, IHe.
      rewrite fmap_cons. cbn [app]. split.
      * by apply prefix_cons.
      * intros Hall. f_equal. by apply IHe.
    + rewrite (bind_raise _ _ _ _ Ho). cbn [outcome emitted].
      rewrite Hev, fmap_cons. split; [|done].
      apply prefix_cons, prefix_nil.
  - assert (Ho : outcome (restore_turn v item s) = Ok ()) by by rewrite Hturn.
    rewrite (bind_ok _ _ _ _ Ho). rewrite Hturn.
    cbn [outcome final emitted app]. apply IH, Hnd.
Qed.

End RestoreAll.

(** C8. Restore All, run by the orchestrator that [main] builds (its session
    notifies through [print]) over distinct configured domains, hands to
    libvirt's restore the save paths of the configured domains whose save file
    exists when the batch starts, in configuration order and nothing else:
    always a prefix of that list, and the whole list when the batch returns
    without an exception. *)
Theorem restore_all_restores_the_saved `{Env} (self : VirtTray) (s : State) :
  show_message (virt self) = print →
  NoDup (domain <$> items (config self)) →
  let r := restore_all self s in
  let saved :=
    List.filter (λ d, path_exists (get_save_path d) (world s))
      (domain <$> items (config self)) in
  restores (emitted r) `prefix_of` (get_save_path <$> saved)
  ∧ (outcome r = Ok () → restores (emitted r) = get_save_path <$> saved).
Proof.
  intros Hp Hnd. exact (restore_loop_restores (virt self) _ s Hp Hnd).
Qed.

Lemma restore_all_restores_the_saved_witness :
  restores (emitted (restore_all (tray_of (Sim.manager print) items_a_b_c)
                       a_saved_b_not_c_saved))
  = [ "/var/lib/libvirt/qemu/save/a.save";
      "/var/lib/libvirt/qemu/save/c.save" ].
Proof.
  assert (Hnd : NoDup (domain <$> items_a_b_c)).
  { apply (bool_decide_unpack _). vm_compute. exact I. }
  pose proof (proj2 (restore_all_restores_the_saved
                       (tray_of (Sim.manager print) items_a_b_c)
                       a_saved_b_not_c_saved eq_refl Hnd)) as Hw.
  cbv zeta in Hw. rewrite Hw.
  - vm_compute. reflexivity.
  - vm_compute. reflexivity.
Defined.

(** ** Splitting a line into fields *)

Section Lines.

Lemma lstrip_blank_app g x : blank g = true → Py.lstrip (g +:+ x) = Py.lstrip x.
Proof.
  induction g as [|c g IH]; simpl; [done|].
  intros [Hc Hg]%andb_true_iff. rewrite Hc. by apply IH.
Qed.

Lemma lstrip_title t : is_title t = true → Py.lstrip t = t.
Proof. destruct t as [|c t]; simpl; [done|]. by intros ->%negb_true_iff. Qed.

Lemma lstrip_split s :
  ∃ g, s = g +:+ Py.lstrip s ∧ blank g = true
       ∧ (Py.lstrip s = "" ∨ is_title (Py.lstrip s) = true).
Proof.
  induction s as [|c s (g & Hs & Hg & Ht)]; simpl.
  - exists "". auto.
  - destruct (Py.is_space c) eqn:Hc.
    + exists (String c g). simpl. rewrite Hc, Hg.
      change (String c g +:+ Py.lstrip s) with (String c (g +:+ Py.lstrip s)).
      rewrite <- Hs. auto.
    + exists "". simpl. rewrite Hc. auto.
Qed.

Lemma take_field_app f rest :
  solid f = true → starts_blank rest = true →
  Py.take_field (f +:+ rest) = (f, rest).
Proof.
  intros Hf Hr. induction f as [|c f IH]; simpl in *.
  - destruct rest as [|c r]; simpl in *; [done|]. by rewrite Hr.
  - apply andb_true_iff in Hf as [Hc%negb_true_iff Hf].
    by rewrite Hc, IH.
Qed.

Lemma take_field_split s f rest :
  Py.take_field s = (f, rest) →
  s = f +:+ rest ∧ solid f = true ∧ starts_blank rest = true.
Proof.
  revert f rest. induction s as [|c s IH]; simpl; intros f rest.
  - by intros [= <- <-].
  - destruct (Py.is_space c) eqn:Hc.
    + intros [= <- <-]. simpl. by rewrite Hc.
    + destruct (Py.take_field s) as [f' rest'].
      intros [= <- <-]. destruct (IH _ _ eq_refl) as (-> & Hf & Hr).
      simpl. by rewrite Hc.
Qed.

Lemma title_app f rest : is_field f = true → is_title (f +:+ rest) = true.
Proof.
  unfold is_field. destruct f as [|c f]; simpl; [done|].
  by intros [Hc _]%andb_true_iff.
Qed.

Lemma starts_blank_gap g rest : is_gap g = true → starts_blank (g +:+ rest) = true.
Proof.
  unfold is_gap. destruct g as [|c g]; simpl; [done|].
  by intros [Hc _]%andb_true_iff.
Qed.

Lemma gap_blank g : is_gap g = true → blank g = true.
Proof. by intros [_ ?]%andb_true_iff. Qed.

Lemma field_solid f : is_field f = true → solid f = true.
Proof. by intros [_ ?]%andb_true_iff. Qed.

Lemma split_ws_blank n g x :
  blank g = true → Py.split_ws n (g +:+ x) = Py.split_ws n x.
Proof. intros Hg. destruct n; simpl; by rewrite (lstrip_blank_app _ _ Hg). Qed.

Lemma split_ws_title n s :
  is_title s = true →
  Py.split_ws (S n) s
  = let '(f, rest) := Py.take_field s in f :: Py.split_ws n rest.
Proof. intros Ht. simpl. rewrite (lstrip_title _ Ht). by destruct s. Qed.

(** One more field is split off. *)
Lemma split_ws_field n g f rest :
  blank g = true → is_field f = true → starts_blank rest = true →
  Py.split_ws (S n) (g +:+ f +:+ rest) = f :: Py.split_ws n rest.
Proof.
  intros Hg Hf Hr.
  rewrite (split_ws_blank _ _ _ Hg), (split_ws_title _ _ (title_app _ rest Hf)).
  by rewrite (take_field_app _ _ (field_solid _ Hf) Hr).
Qed.

(** The remainder after the last split. *)
Lemma split_ws_rest g t :
  blank g = true → is_title t = true → Py.split_ws 0 (g +:+ t) = [t].
Proof.
  intros Hg Ht. rewrite (split_ws_blank _ _ _ Hg). simpl.
  rewrite (lstrip_title _ Ht). by destruct t.
Qed.

Lemma split_ws_cons_inv n s f l :
  Py.split_ws (S n) s = f :: l →
  ∃ g rest, s = g +:+ f +:+ rest ∧ blank g = true ∧ is_field f = true
            ∧ starts_blank rest = true ∧ l = Py.split_ws n rest.
Proof.
  destruct (lstrip_split s) as (g & Hs & Hg & Ht).
  rewrite Hs at 1. rewrite (split_ws_blank _ _ _ Hg).
  destruct Ht as [Ht|Ht]; [by rewrite Ht|].
  rewrite (split_ws_title _ _ Ht).
  destruct (Py.take_field (Py.lstrip s)) as [f' rest] eqn:Htf.
  intros [= <- <-]. exists g, rest.
  destruct (take_field_split _ _ _ Htf) as (Hsplit & Hf & Hr).
  rewrite <- Hsplit. repeat split; try done.
  unfold is_field. rewrite Hf, andb_true_r.
  destruct (Py.lstrip s) as [|c s']; [done|].
  simpl in Htf, Ht. apply negb_true_iff in Ht. rewrite Ht in Htf.
  destruct (Py.take_field s'). by injection Htf as <- _.
Qed.

Lemma split_ws_rest_inv s t :
  Py.split_ws 0 s = [t] → ∃ g, s = g +:+ t ∧ blank g = true ∧ is_title t = true.
Proof.
  destruct (lstrip_split s) as (g & Hs & Hg & Ht).
  rewrite Hs at 1. rewrite (split_ws_blank _ _ _ Hg).
  destruct Ht as [Ht|Ht]; [by rewrite Ht|].
  simpl. rewrite (lstrip_title _ Ht).
  destruct (Py.lstrip s) as [|c s'] eqn:Hl; [done|].
  intros [= <-]. by exists g.
Qed.

(** A gap is what lies between a field and a later, non-empty split. *)
Lemma gap_of_blank_start g x :
  starts_blank (g +:+ x) = true → is_title x = true → blank g = true →
  is_gap g = true.
Proof.
  intros Hs Hx Hg. unfold is_gap. rewrite Hg, andb_true_r.
  destruct g; [|done]. simpl in Hs.
  destruct x as [|c x]; simpl in *; [done|].
  by rewrite Hs in Hx.
Qed.

End Lines.

Section Listing.
Context `{Env}.

Lemma split_ws_length n s : (length (Py.split_ws n s) ≤ S n)%nat.
Proof.
  revert s. induction n as [|n IH]; intros s; simpl.
  - destruct (Py.lstrip s); simpl; lia.
  - destruct (Py.lstrip s) as [|c s']; simpl; [lia|].
    destruct (Py.is_space c).
    + specialize (IH (String c s')). simpl. lia.
    + destruct (Py.take_field s') as [f rest]. specialize (IH rest).
      simpl. lia.
Qed.

Lemma unpack_line_fields line item :
  unpack_line line = Ok item ↔
  ∃ f2 f3, Py.split_ws 3 line = [window_id item; f2; f3; title item].
Proof.
  unfold unpack_line. split.
  - destruct (Py.split_ws 3 line) as [|w [|f2 [|f3 [|t [|]]]]]; try done.
    intros [= <-]. by exists f2, f3.
  - intros (f2 & f3 & ->). by destruct item.
Qed.

Lemma unpack_line_raise line e :
  unpack_line line = Raise e ↔
  e = ValueError ∧ length (Py.split_ws 3 line) < 4.
Proof.
  unfold unpack_line. pose proof (split_ws_length 3 line) as Hlen.
  destruct (Py.split_ws 3 line) as [|w [|f2 [|f3 [|t [|]]]]]; simpl in *;
    split; try (intros [= <-]; split; [done|lia]);
    try (intros [-> _]; done); try done; try (intros [_ ?]; lia); lia.
Qed.

Lemma unpack_line_record line item :
  unpack_line line = Ok item ↔ is_record line item.
Proof.
  rewrite unpack_line_fields. split.
  - intros (f2 & f3 & Hs).
    apply split_ws_cons_inv in Hs as (g0 & r1 & -> & Hg0 & Hw & Hr1 & Hs).
    symmetry in Hs.
    apply split_ws_cons_inv in Hs as (g1 & r2 & -> & Hg1 & Hf2 & Hr2 & Hs).
    symmetry in Hs.
    apply split_ws_cons_inv in Hs as (g2 & r3 & -> & Hg2 & Hf3 & Hr3 & Hs).
    symmetry in Hs.
    apply split_ws_rest_inv in Hs as (g3 & -> & Hg3 & Ht).
    exists g0, g1, f2, g2, f3, g3. repeat split; try done.
    + eapply gap_of_blank_start; [exact Hr1 | by apply title_app | done].
    + eapply gap_of_blank_start; [exact Hr2 | by apply title_app | done].
    + eapply gap_of_blank_start; [exact Hr3 | done | done].
  - intros (g0 & g1 & f2 & g2 & f3 & g3 & -> & Hg0 & Hw & Hg1 & Hf2 & Hg2
            & Hf3 & Hg3 & Ht).
    exists f2, f3.
    rewrite (split_ws_field _ _ _ _ Hg0 Hw (starts_blank_gap _ _ Hg1)).
    rewrite (split_ws_field _ _ _ _ (gap_blank _ Hg1) Hf2
               (starts_blank_gap _ _ Hg2)).
    rewrite (split_ws_field _ _ _ _ (gap_blank _ Hg2) Hf3
               (starts_blank_gap _ _ Hg3)).
    by rewrite (split_ws_rest _ _ (gap_blank _ Hg3) Ht).
Qed.

Lemma collect_items_ok lines acc items :
  collect_items lines acc = Ok items ↔
  ∃ new, items = acc ++ new
         ∧ Forall2 (λ line item, unpack_line line = Ok item) lines new.
Proof.
  revert acc. induction lines as [|line lines IH]; intros acc; simpl.
  - split.
    + intros [= <-]. exists []. by rewrite app_nil_r.
    + intros (new & -> & ->%Forall2_nil_inv_l). by rewrite app_nil_r.
  - destruct (unpack_line line) as [item|e] eqn:Hu.
    + rewrite IH. split.
      * intros (new & -> & Hall). exists (item :: new).
        rewrite <- app_assoc. split; [done|]. by constructor.
      * intros (new & -> & Hall).
        apply Forall2_cons_inv_l in Hall as (item' & new' & Hi & Hall & ->).
        assert (item' = item) as -> by congruence.
        exists new'. by rewrite <- app_assoc.
    + split; [done|].
      intros (new & _ & Hall).
      apply Forall2_cons_inv_l in Hall as (item' & new' & Hi & _). congruence.
Qed.

Lemma collect_items_raise lines acc e :
  collect_items lines acc = Raise e ↔
  e = ValueError ∧ ∃ line, line ∈ lines ∧ length (Py.split_ws 3 line) < 4.
Proof.
  revert acc. induction lines as [|line lines IH]; intros acc; simpl.
  - split; [done|]. intros (_ & line & Hin & _). by apply elem_of_nil in Hin.
  - destruct (unpack_line line) as [item|e'] eqn:Hu.
    + rewrite IH. split; intros (-> & l & Hin & Hlt); (split; [done|]).
      * exists l. split; [by right | done].
      * apply elem_of_cons in Hin as [->|Hin]; [|by exists l].
        assert (unpack_line line = Raise ValueError) as Hr
          by by apply unpack_line_raise.
        congruence.
    + apply unpack_line_raise in Hu as [-> Hlt]. split.
      * intros [= <-]. split; [done|]. exists line. split; [by left | done].
      * by intros [-> _].
Qed.

Lemma execute_command_run (command : string) (s : State) :
  execute_command command s
  = {| outcome := Ok (fst (shell command (world s)));
       final := {| world := snd (shell command (world s));
                   actions := actions s; trays := trays s |};
       emitted := [Exec command] |}.
Proof.
  unfold execute_command, mbind, M_bind, bind, emit, act. simpl.
  by destruct (shell command (world s)).
Qed.

Lemma get_wmctrl_items_run (s : State) :
  get_wmctrl_items s
  = {| outcome := parse_listing (fst (shell "wmctrl -l" (world s)));
       final := listed s;
       emitted := [Exec "wmctrl -l"] |}.
Proof.
  unfold get_wmctrl_items, mbind, M_bind, bind. cbv zeta.
  rewrite execute_command_run. cbn [outcome final emitted].
  by destruct (parse_listing _).
Qed.

(** C4, as the code has it. [get_wmctrl_items] runs [wmctrl -l] once and
    splits the stripped output into lines.  When no line is empty, it reads
    each line as: the window id, two more whitespace-delimited fields that it
    ignores, and the title, which is all that follows the third field up to
    the end of the line.  It returns the records of all lines, in order,
    exactly when every line has this shape, and raises [ValueError],
    returning no record at all, exactly when some line has fewer than four
    fields. *)
Theorem get_wmctrl_items_reads_four_fields (s : State) :
  let lines :=
    Py.split_char Py.newline (Py.strip (fst (shell "wmctrl -l" (world s)))) in
  Forall (λ line, nonempty line = true) lines →
  emitted (get_wmctrl_items s) = [Exec "wmctrl -l"]
  ∧ (∀ items,
       outcome (get_wmctrl_items s) = Ok items ↔ Forall2 is_record lines items)
  ∧ (outcome (get_wmctrl_items s) = Raise ValueError ↔
     ∃ line, line ∈ lines ∧ length (Py.split_ws 3 line) < 4).
Proof.
  intros lines _. rewrite get_wmctrl_items_run. cbn [outcome emitted].
  unfold parse_listing. fold lines. split; [done|]. split.
  - intros items. rewrite collect_items_ok. split.
    + intros (new & -> & Hall). simpl.
      eapply Forall2_impl; [exact Hall|].
      intros line item. by rewrite unpack_line_record.
    + intros Hall. exists items. split; [done|].
      eapply Forall2_impl; [exact Hall|].
      intros line item. by rewrite unpack_line_record.
  - rewrite collect_items_raise. split; [by intros [_ ?] | by intros ?].
Qed.

End Listing.

(** C4 as stated fails: [wmctrl -l] prints the desktop and the host before
    the title, and the title starts after the third field, not after the
    second. *)
Lemma title_follows_the_third_field :
  unpack_line_two_fields "0x01600003  0 myhost web01 on QEMU/KVM"
    = Ok {| window_id := "0x01600003"; title := "myhost web01 on QEMU/KVM" |}
  ∧ outcome (get_wmctrl_items
               (Sim.host ["0x01600003  0 myhost web01 on QEMU/KVM"] [] []))
      = Ok [ {| window_id := "0x01600003"; title := "web01 on QEMU/KVM" |} ].
Proof. vm_compute. done. Qed.

Lemma get_wmctrl_items_reads_four_fields_witness :
  Forall2 is_record
    [ "0x01600003  0 myhost web01 on QEMU/KVM";
      "0x02000007  0 myhost Terminal";
      "0x01600009  0 myhost web01 on QEMU/KVM" ]
    [ {| window_id := "0x01600003"; title := "web01 on QEMU/KVM" |};
      {| window_id := "0x02000007"; title := "Terminal" |};
      {| window_id := "0x01600009"; title := "web01 on QEMU/KVM" |} ].
Proof.
  pose proof (get_wmctrl_items_reads_four_fields two_consoles_open) as Hw.
  cbv zeta in Hw.
  assert (Hl : Py.split_char Py.newline
                 (Py.strip (fst (shell "wmctrl -l" (world two_consoles_open))))
               = [ "0x01600003  0 myhost web01 on QEMU/KVM";
                   "0x02000007  0 myhost Terminal";
                   "0x01600009  0 myhost web01 on QEMU/KVM" ])
    by (vm_compute; reflexivity).
  rewrite Hl in Hw.
  destruct Hw as (_ & Hrec & _); [by repeat constructor|].
  apply Hrec. vm_compute. reflexivity.
Defined.

Section WindowOpen.
Context `{Env}.

Lemma any_line_matches_parsed (p : string → bool) lines items :
  Forall2 (λ line item, unpack_line line = Ok item) lines items →
  any_line_matches p lines = Ok (existsb (λ item, p (title item)) items).
Proof.
  induction 1 as [|line item lines items Hu _ IH]; [done|].
  cbn [any_line_matches existsb].
  apply unpack_line_fields in Hu as (f2 & f3 & ->).
  cbn [Py.last_item last].
  destruct (p (title item)); [done|]. exact IH.
Qed.

Lemma window_open_in_parsed (p : string → bool) out items :
  parse_listing out = Ok items →
  window_open_in p out = Ok (existsb (λ item, p (title item)) items).
Proof.
  unfold parse_listing, window_open_in.
  intros (new & -> & Hall)%collect_items_ok.
  by apply any_line_matches_parsed.
Qed.

Lemma is_window_open_run (p : string → bool) (s : State) :
  is_window_open p s
  = {| outcome := window_open_in p (fst (shell "wmctrl -l" (world s)));
       final := listed s;
       emitted := [Exec "wmctrl -l"] |}.
Proof.
  unfold is_window_open, mbind, M_bind, bind. cbv zeta.
  rewrite execute_command_run. cbn [outcome final emitted].
  by destruct (window_open_in _ _).
Qed.

Lemma first_match_existsb (p : string → bool) items :
  match first_match p items with
  | Some item => item ∈ items ∧ p (title item) = true
                 ∧ existsb (λ item, p (title item)) items = true
  | None => existsb (λ item, p (title item)) items = false
  end.
Proof.
  induction items as [|item items IH]; simpl; [done|].
  destruct (p (title item)) eqn:Hp; simpl.
  - split; [by left | done].
  - destruct (first_match p items); [|done].
    destruct IH as (Hin & Hpi & Hex). split; [by right | done].
Qed.

Lemma try_get_wmctrl_item_run (p : string → bool) (s : State) items :
  outcome (get_wmctrl_items s) = Ok items →
  try_get_wmctrl_item p s
  = {| outcome := Ok (first_match p items,
                      existsb (λ item, p (title item)) items);
       final := listed s;
       emitted := [Exec "wmctrl -l"] |}.
Proof.
  intros Hi. unfold try_get_wmctrl_item. rewrite (bind_ok _ _ _ _ Hi).
  rewrite get_wmctrl_items_run. cbn [outcome final emitted].
  pose proof (first_match_existsb p items) as Hm.
  destruct (first_match p items); simpl.
  - by destruct Hm as (_ & _ & ->).
  - by rewrite Hm.
Qed.

Lemma window_open_answer (p : string → bool) (s : State)
    (items : list WmctrlItem) :
  outcome (get_wmctrl_items s) = Ok items →
  outcome (is_window_open p s) = Ok (existsb (λ item, p (title item)) items)
  ∧ is_window_open p s
    = {| outcome := Ok (existsb (λ item, p (title item)) items);
         final := listed s; emitted := [Exec "wmctrl -l"] |}.
Proof.
  intros Hi. rewrite get_wmctrl_items_run in Hi. cbn [outcome] in Hi.
  rewrite is_window_open_run. cbn [outcome].
  by rewrite (window_open_in_parsed _ _ _ Hi).
Qed.

(** On a listing that [get_wmctrl_items] reads (every line has its four
    fields), [is_window_open] returns without an exception,
    true exactly when the title of some listed window satisfies the
    predicate and false exactly when none does, and its answer is the
    [found] flag of [try_get_wmctrl_item] on that listing. *)
Theorem is_window_open_on_a_read_listing (p : string → bool) (s : State)
    (items : list WmctrlItem) :
  outcome (get_wmctrl_items s) = Ok items →
  (outcome (is_window_open p s) = Ok true
   ∨ outcome (is_window_open p s) = Ok false)
  ∧ (outcome (is_window_open p s) = Ok true ↔
     ∃ item, item ∈ items ∧ p (title item) = true)
  ∧ (outcome (is_window_open p s) = Ok false ↔
     ∀ item, item ∈ items → p (title item) = false)
  ∧ ∃ (item : option WmctrlItem) (found : bool),
      outcome (try_get_wmctrl_item p s) = Ok (item, found)
      ∧ outcome (is_window_open p s) = Ok found.
Proof.
  intros Hi. rewrite (try_get_wmctrl_item_run p s items Hi).
  rewrite get_wmctrl_items_run in Hi. cbn [outcome] in Hi.
  rewrite is_window_open_run. cbn [outcome].
  rewrite (window_open_in_parsed _ _ _ Hi).
  assert (Hex : existsb (λ item, p (title item)) items = true ↔
                ∃ item, item ∈ items ∧ p (title item) = true).
  { rewrite existsb_exists. by setoid_rewrite list_elem_of_In. }
  split; [destruct (existsb _ items); auto|]. split; [|split].
  - rewrite <- Hex. split; [by intros [= ->] | by intros ->].
  - split.
    + intros [= Hf] item Hin. destruct (p (title item)) eqn:Hp; [|done].
      assert (existsb (λ item, p (title item)) items = true) by (apply Hex; eauto).
      congruence.
    + intros Hall. f_equal. apply not_true_is_false. intros Ht.
      apply Hex in Ht as (item & Hin & Hp). rewrite (Hall _ Hin) in Hp. done.
  - eauto.
Qed.

End WindowOpen.

(** C5. The code departs from the claim on two inputs.  With no window
    listed, [wmctrl -l] prints nothing, the only line of the stripped output
    is empty, and taking the last field of it raises [IndexError] before
    [is_window_open] reaches its own [return False], where the claim has it
    return false.  On a line of three fields, a window with an empty title,
    it takes the host for the title and answers true, where
    [try_get_wmctrl_item] raises [ValueError] on the same listing and
    reports no window found. *)
Lemma is_window_open_raises_on_no_window :
  outcome (is_window_open (λ _, false) (Sim.host [""] [] []))
    = Raise IndexError
  ∧ outcome (is_window_open (String.eqb "myhost")
               (Sim.host ["0x01600003  0 myhost"] [] [])) = Ok true
  ∧ outcome (try_get_wmctrl_item (String.eqb "myhost")
               (Sim.host ["0x01600003  0 myhost"] [] []))
      = Raise ValueError.
Proof. vm_compute. done. Qed.

Lemma is_window_open_on_a_read_listing_witness :
  outcome (is_window_open (virt_manager_target_title "web01")
             (Sim.host ["0x01600003  0 myhost web01 on QEMU/KVM"] [] []))
    = Ok true.
Proof.
  apply (is_window_open_on_a_read_listing
           (virt_manager_target_title "web01")
           (Sim.host ["0x01600003  0 myhost web01 on QEMU/KVM"] [] [])
           [ {| window_id := "0x01600003"; title := "web01 on QEMU/KVM" |} ]).
  - vm_compute. reflexivity.
  - exists {| window_id := "0x01600003"; title := "web01 on QEMU/KVM" |}.
    split; [by left | vm_compute; reflexivity].
Defined.

(** ** Opening the console: the focus loop *)
Section Focus.
Context `{Env}.

Lemma focus_loop_step (d : string) (n : nat) (s : State) :
  let r := focus_loop d (S n) s in
  match attempt d (world s) with
  | Raise e => outcome r = Raise e ∧ emitted r = [Exec "wmctrl -l"]
  | Ok (Some it) =>
      outcome r = Ok ()
      ∧ emitted r = [Exec "wmctrl -l"; Exec ("wmctrl -ia " +:+ window_id it)]
  | Ok None =>
      let r' := focus_loop d n (with_world s (after_attempt (world s))) in
      outcome r = outcome r'
      ∧ emitted r = Exec "wmctrl -l" :: Sleep 100 :: emitted r'
  end.
Proof.
  cbn zeta. unfold attempt.
  change (focus_loop d (S n) s) with
    ((try_get_wmctrl_item (virt_manager_target_title d) ≫= λ '(item, found),
        if found : bool then
          match item with
          | Some it =>
              _ ← execute_command ("wmctrl -ia " +:+ window_id it); mret ()
          | None => raise AttributeError
          end
        else time_sleep 100;; focus_loop d n) s).
  destruct (parse_listing (fst (shell "wmctrl -l" (world s))))
    as [items|e] eqn:Hp.
  - assert (Hi : outcome (get_wmctrl_items s) = Ok items)
      by by rewrite get_wmctrl_items_run.
    pose proof (try_get_wmctrl_item_run (virt_manager_target_title d) s
                  items Hi) as Ht.
    rewrite (bind_ok _ _ _ (first_match (virt_manager_target_title d) items,
                            existsb (λ item, virt_manager_target_title d
                                               (title item)) items))
      by by rewrite Ht.
    rewrite Ht. cbn [outcome final emitted].
    pose proof (first_match_existsb (virt_manager_target_title d) items) as Hm.
    destruct (first_match (virt_manager_target_title d) items) as [it|].
    + destruct Hm as (_ & _ & ->).
      unfold mbind, M_bind, bind. cbv zeta.
      rewrite execute_command_run. by cbn.
    + rewrite Hm. unfold time_sleep, mbind, M_bind, bind, emit, act.
      cbn. unfold with_world, after_attempt, listed. cbn.
      by destruct (outcome (focus_loop d n _)).
  - assert (Hi : outcome (try_get_wmctrl_item (virt_manager_target_title d) s)
                 = Raise e).
    { unfold try_get_wmctrl_item.
      rewrite (bind_raise _ _ _ e) by by rewrite get_wmctrl_items_run.
      done. }
    rewrite (bind_raise _ _ _ _ Hi). cbn [outcome emitted].
    split; [done|]. unfold try_get_wmctrl_item.
    rewrite (bind_raise _ _ _ e) by by rewrite get_wmctrl_items_run.
    by rewrite get_wmctrl_items_run.
Qed.

End Focus.

Section FocusBound.
Context `{Env}.
Local Open Scope nat_scope.

Lemma focus_loop_trace (d : string) (n : nat) (s : State) :
  ∃ k tail,
    k ≤ n
    ∧ (∀ j, j < k → attempt d (after_attempts j (world s)) = Ok None)
    ∧ emitted (focus_loop d n s) = rounds k ++ tail
    ∧ focus_ending d n k (world s) (outcome (focus_loop d n s)) tail.
Proof.
  revert s. induction n as [|n IH]; intros s.
  { exists 0, []. repeat split; [lia | intros; lia |].
    right; right. done. }
  pose proof (focus_loop_step d n s) as Hstep. cbn zeta in Hstep.
  destruct (attempt d (world s)) as [[it|]|e] eqn:Ha.
  - destruct Hstep as [Ho He]. exists 0, (emitted (focus_loop d (S n) s)).
    repeat split; [lia | intros; lia |].
    left. split; [lia|]. exists it. by rewrite Ho, He.
  - destruct Hstep as [Ho He].
    destruct (IH (with_world s (after_attempt (world s))))
      as (k & tail & Hk & Hnone & Hev & Hend).
    exists (S k), tail. split; [lia|]. split; [|split].
    + intros [|j] Hj; [done|]. apply Hnone. lia.
    + rewrite He, Hev. done.
    + rewrite Ho. cbn [with_world world] in Hend.
      destruct Hend as [[Hlt Hf]|[[Hlt Hf]|(-> & Hf)]].
      * left. split; [lia | exact Hf].
      * right; left. split; [lia | exact Hf].
      * right; right. done.
  - destruct Hstep as [Ho He]. exists 0, (emitted (focus_loop d (S n) s)).
    repeat split; [lia | intros; lia |].
    right; left. split; [lia|]. exists e. by rewrite Ho, He.
Qed.

Lemma slept_rounds k tail : slept (rounds k ++ tail) = (100 * Z.of_nat k + slept tail)%Z.
Proof. induction k as [|k IH]; simpl rounds; simpl app; cbn [slept]; lia. Qed.

Lemma executions_rounds k tail :
  executions "wmctrl -l" (rounds k ++ tail) = k + executions "wmctrl -l" tail.
Proof. induction k as [|k IH]; simpl; [done | by rewrite IH]. Qed.

Lemma activate_is_no_listing x :
  String.eqb ("wmctrl -ia " +:+ x) "wmctrl -l" = false.
Proof. reflexivity. Qed.

Lemma launch_is_no_listing d : String.eqb (launch_command d) "wmctrl -l" = false.
Proof. reflexivity. Qed.

Lemma activate_is_no_launch x d :
  String.eqb ("wmctrl -ia " +:+ x) (launch_command d) = false.
Proof. reflexivity. Qed.

Lemma listing_is_no_launch d : String.eqb "wmctrl -l" (launch_command d) = false.
Proof. reflexivity. Qed.

Lemma focus_loop_tail (d : string) (n k : nat) (w : World)
    (o : Outcome unit) (tail : list Event) :
  focus_ending d n k w o tail →
  slept tail = 0%Z
  ∧ executions "wmctrl -l" tail ≤ n - k
  ∧ executions (launch_command d) tail = 0.
Proof.
  intros [(Hlt & it & _ & _ & ->)|[(Hlt & e & _ & _ & ->)|(-> & _ & ->)]];
    cbn [slept executions];
    rewrite ?activate_is_no_listing, ?activate_is_no_launch,
      ?listing_is_no_launch; cbn; repeat split; lia.
Qed.

Lemma rounds_no_launch (d : string) (k : nat) (tail : list Event) :
  executions (launch_command d) (rounds k ++ tail)
  = executions (launch_command d) tail.
Proof.
  induction k as [|k IH]; [done|].
  cbn [rounds app executions]. by rewrite listing_is_no_launch.
Qed.

Lemma focus_loop_no_launch (d : string) (n : nat) (s : State) :
  executions (launch_command d) (emitted (focus_loop d n s)) = 0.
Proof.
  destruct (focus_loop_trace d n s) as (k & tail & _ & _ & -> & Hend).
  rewrite rounds_no_launch. by apply focus_loop_tail in Hend as (_ & _ & ?).
Qed.

Lemma open_virt_manager_run (d : string) (s : State) :
  let s1 := with_world s (snd (shell (launch_command d) (world s))) in
  outcome (open_virt_manager d s) = outcome (focus_loop d 10 s1)
  ∧ final (open_virt_manager d s) = final (focus_loop d 10 s1)
  ∧ emitted (open_virt_manager d s)
      = Exec (launch_command d) :: emitted (focus_loop d 10 s1).
Proof.
  cbn zeta. unfold open_virt_manager. fold (launch_command d).
  assert (Hl : outcome (execute_command (launch_command d) s)
               = Ok (fst (shell (launch_command d) (world s))))
    by by rewrite execute_command_run.
  rewrite (bind_ok _ _ _ _ Hl). by rewrite execute_command_run.
Qed.

(** C6. [open_virt_manager] launches the console viewer, then makes at most
    ten attempts to find the window, sleeping 100 ms after each attempt that
    found nothing, so it sleeps one second at most.  The attempt that first
    finds the window activates it, and nothing follows; when all ten attempts
    find nothing the call returns without an exception and without
    activating anything.  (An attempt whose listing cannot be read ends the
    call with that exception.) *)
Theorem open_virt_manager_polls_ten_times_at_most (d : string) (s : State) :
  let r := open_virt_manager d s in
  let w := snd (shell (launch_command d) (world s)) in
  ∃ (k : nat) (tail : list Event),
    k ≤ 10
    ∧ (∀ j, j < k → attempt d (after_attempts j w) = Ok None)
    ∧ emitted r = Exec (launch_command d) :: rounds k ++ tail
    ∧ focus_ending d 10 k w (outcome r) tail
    ∧ (slept (emitted r) = 100 * Z.of_nat k)%Z
    ∧ (slept (emitted r) ≤ 1000)%Z
    ∧ executions "wmctrl -l" (emitted r) ≤ 10
    ∧ executions (launch_command d) (emitted r) = 1.
Proof.
  cbn zeta.
  destruct (open_virt_manager_run d s) as (-> & _ & ->).
  destruct (focus_loop_trace d 10
              (with_world s (snd (shell (launch_command d) (world s)))))
    as (k & tail & Hk & Hnone & -> & Hend).
  cbn [with_world world] in Hnone, Hend.
  exists k, tail.
  destruct (focus_loop_tail _ _ _ _ _ _ Hend) as (Hs0 & Hpolls & Hlaunch).
  repeat split; try done.
  - cbn [slept]. rewrite slept_rounds. lia.
  - cbn [slept]. rewrite slept_rounds. lia.
  - cbn [executions]. rewrite launch_is_no_listing, executions_rounds. lia.
  - cbn [executions]. by rewrite String.eqb_refl, rounds_no_launch, Hlaunch.
Qed.

End FocusBound.

(** ** Toggling the console *)
Section Toggle.
Context `{Env}.

Lemma target_title_spec (d t : string) :
  virt_manager_target_title d t = true ↔ t = d +:+ " on QEMU/KVM".
Proof. unfold virt_manager_target_title. apply String.eqb_eq. Qed.

Lemma close_turn_run (d : string) (item : WmctrlItem) (s : State) :
  outcome (close_turn d item s) = Ok ()
  ∧ emitted (close_turn d item s) = close_commands (d +:+ " on QEMU/KVM") [item].
Proof.
  unfold close_turn, close_commands. rewrite filter_cons, filter_nil.
  destruct (virt_manager_target_title d (title item)) eqn:Ht.
  - apply target_title_spec in Ht. rewrite decide_True by done.
    unfold mbind, M_bind, bind. cbv zeta.
    rewrite execute_command_run. done.
  - rewrite decide_False
      by (intros Heq; apply target_title_spec in Heq; congruence).
    done.
Qed.

Lemma close_loop_run (d : string) (items : list WmctrlItem) (s : State) :
  outcome (for_each items (close_turn d) s) = Ok ()
  ∧ emitted (for_each items (close_turn d) s)
      = close_commands (d +:+ " on QEMU/KVM") items.
Proof.
  revert s. induction items as [|item items IH]; intros s; [done|].
  change (for_each (item :: items) (close_turn d) s)
    with ((close_turn d item ≫= λ _, for_each items (close_turn d)) s).
  destruct (close_turn_run d item s) as [Ho He].
  rewrite (bind_ok _ _ _ _ Ho). cbn [outcome emitted].
  destruct (IH (final (close_turn d item s))) as [Ho' He'].
  rewrite Ho', He', He. split; [done|].
  unfold close_commands. by rewrite <- fmap_app, <- filter_app.
Qed.

Lemma close_window_run (d : string) (s : State) (items : list WmctrlItem) :
  outcome (get_wmctrl_items s) = Ok items →
  outcome (close_window (virt_manager_target_title d) s) = Ok ()
  ∧ emitted (close_window (virt_manager_target_title d) s)
      = Exec "wmctrl -l" :: close_commands (d +:+ " on QEMU/KVM") items.
Proof.
  intros Hi. unfold close_window. rewrite (bind_ok _ _ _ _ Hi).
  rewrite get_wmctrl_items_run. cbn [outcome final emitted].
  destruct (close_loop_run d items (listed s)) as [Ho He].
  unfold close_turn in Ho, He. by rewrite Ho, He.
Qed.

(** [trigger_virt_manager(D)] lists the windows; on a listing it can
    read, if some window is titled exactly ["D on QEMU/KVM"] it lists the
    windows again and issues one close command for every window with that
    title, in listing order, and nothing else; if no window has that title it
    goes on exactly as [open_virt_manager(D)] does, launching one console. *)
Theorem trigger_virt_manager_closes_all_or_opens (d : string) (s : State)
    (items : list WmctrlItem) :
  outcome (get_wmctrl_items s) = Ok items →
  let r := trigger_virt_manager d s in
  let target := d +:+ " on QEMU/KVM" in
  ((∃ item, item ∈ items ∧ title item = target) →
   ∀ again, outcome (get_wmctrl_items (listed s)) = Ok again →
     outcome r = Ok ()
     ∧ emitted r
         = Exec "wmctrl -l" :: Exec "wmctrl -l" :: close_commands target again)
  ∧ ((∀ item, item ∈ items → title item ≠ target) →
     outcome r = outcome (open_virt_manager d (listed s))
     ∧ final r = final (open_virt_manager d (listed s))
     ∧ emitted r = Exec "wmctrl -l" :: emitted (open_virt_manager d (listed s))
     ∧ executions (launch_command d) (emitted r) = 1).
Proof.
  intros Hi. cbn zeta.
  destruct (window_open_answer
              (virt_manager_target_title d) s items Hi) as [Hopen Hrun].
  unfold trigger_virt_manager. split.
  - intros (item & Hin & Ht) again Hagain.
    assert (Ho : outcome (is_window_open (virt_manager_target_title d) s)
                 = Ok true).
    { rewrite Hopen. f_equal. apply existsb_exists. exists item.
      split; [by apply list_elem_of_In | by apply target_title_spec]. }
    rewrite (bind_ok _ _ _ _ Ho), Hrun. cbn [outcome final emitted].
    destruct (close_window_run d (listed s) again Hagain) as [Hc He].
    by rewrite Hc, He.
  - intros Hnone.
    assert (Ho : outcome (is_window_open (virt_manager_target_title d) s)
                 = Ok false).
    { rewrite Hopen. f_equal. apply not_true_is_false.
      intros (item & Hin & Ht)%existsb_exists.
      apply list_elem_of_In in Hin. apply target_title_spec in Ht.
      by apply (Hnone item). }
    rewrite (bind_ok _ _ _ _ Ho), Hrun. cbn [outcome final emitted app].
    repeat split; try done.
    destruct (open_virt_manager_run d (listed s)) as (_ & _ & ->).
    cbn [executions].
    by rewrite listing_is_no_launch, String.eqb_refl, focus_loop_no_launch.
Qed.

End Toggle.

Lemma trigger_virt_manager_closes_all_or_opens_witness :
  emitted (trigger_virt_manager "web01" two_consoles_open)
  = [ Exec "wmctrl -l"; Exec "wmctrl -l";
      Exec "wmctrl -ic 0x01600003"; Exec "wmctrl -ic 0x01600009" ].
Proof.
  refine (proj2 (proj1 (trigger_virt_manager_closes_all_or_opens "web01"
                          two_consoles_open
                          [ {| window_id := "0x01600003";
                               title := "web01 on QEMU/KVM" |};
                            {| window_id := "0x02000007"; title := "Terminal" |};
                            {| window_id := "0x01600009";
                               title := "web01 on QEMU/KVM" |} ] _) _
                   [ {| window_id := "0x01600003";
                        title := "web01 on QEMU/KVM" |};
                     {| window_id := "0x02000007"; title := "Terminal" |};
                     {| window_id := "0x01600009";
                        title := "web01 on QEMU/KVM" |} ] _)).
  - vm_compute. reflexivity.
  - exists {| window_id := "0x01600003"; title := "web01 on QEMU/KVM" |}.
    split; [by left | reflexivity].
  - vm_compute. reflexivity.
Defined.

(** C7. The code departs from the claim when no window at all is listed:
    no window is titled ["web01 on QEMU/KVM"], so the claim has
    [trigger_virt_manager("web01")] open one console; the code raises
    [IndexError] out of [is_window_open] after the one [wmctrl -l] and never
    launches the viewer. *)
Lemma trigger_virt_manager_opens_nothing_when_none_listed :
  let r := trigger_virt_manager "web01" (Sim.host [""] [] []) in
  outcome r = Raise IndexError
  ∧ emitted r = [Exec "wmctrl -l"]
  ∧ executions (launch_command "web01") (emitted r) = 0.
Proof. vm_compute. done. Qed.

(** ** Which events a program can emit *)
Section Emits.
Context `{Env}.

Lemma emits_ret {A} P (a : A) : emits P (mret a : M A).
Proof. intros s. constructor. Qed.

Lemma emits_raise {A} P e : emits P (raise e : M A).
Proof. intros s. constructor. Qed.

Lemma emits_emit (P : Event → Prop) e : P e → emits P (emit e).
Proof. intros He s. by repeat constructor. Qed.

Lemma emits_ask {A} P (q : World → A) : emits P (ask q).
Proof. intros s. constructor. Qed.

Lemma emits_act {A} P (c : World → A * World) : emits P (act c).
Proof. intros s. unfold act. destruct (c (world s)). constructor. Qed.

Lemma emits_lift {A} P (o : Outcome A) : emits P (lift o).
Proof. destruct o; [apply (emits_ret P) | apply emits_raise]. Qed.

Lemma emits_bind {A B} P (m : M A) (k : A → M B) :
  emits P m → (∀ a, emits P (k a)) → emits P (m ≫= k).
Proof.
  intros Hm Hk s. unfold mbind, M_bind, bind. cbv zeta.
  destruct (outcome (m s)); cbn [emitted]; [|apply Hm].
  apply Forall_app. split; [apply Hm | apply Hk].
Qed.

Lemma emits_for_each {A} P (l : list A) (body : A → M unit) :
  (∀ x, emits P (body x)) → emits P (for_each l body).
Proof.
  intros Hb. induction l as [|x l IH]; [apply (emits_ret P)|].
  apply emits_bind; [apply Hb | intros _; apply IH].
Qed.

End Emits.

Ltac emits_step :=
  first
    [ apply emits_bind; [|intros ?]
    | apply emits_for_each; intros ?
    | apply emits_ret
    | apply emits_raise
    | apply emits_ask
    | apply emits_act
    | apply emits_lift
    | apply emits_emit ].

(** ** What [create_tray_icon] builds *)
Section Icons.
Context `{Env}.

Lemma runs_bind {A B} (m : M A) (k : A → M B) s a s1 b s2 :
  runs m s a s1 → runs (k a) s1 b s2 → runs (m ≫= k) s b s2.
Proof.
  intros [Ho <-] [Hk <-]. unfold runs. by rewrite (bind_ok _ _ _ _ Ho).
Qed.

Lemma runs_ret {A} (a : A) s : runs (mret a) s a s.
Proof. done. Qed.

Lemma post_bind {A B} (m : M A) (k : A → M B) s Q :
  post m s (λ a s', post (k a) s' Q) → post (m ≫= k) s Q.
Proof.
  intros Hm b. destruct (outcome (m s)) as [a|e] eqn:Ho.
  - rewrite (bind_ok _ _ _ _ Ho). cbn [outcome final]. by apply Hm.
  - by rewrite (bind_raise _ _ _ _ Ho).
Qed.

Lemma post_ret {A} (a : A) s (Q : A → State → Prop) :
  Q a s → post (mret a) s Q.
Proof. by intros HQ ? [= <-]. Qed.

Lemma post_runs {A} (m : M A) s a s' (Q : A → State → Prop) :
  runs m s a s' → Q a s' → post m s Q.
Proof. intros [Ho <-] HQ b. rewrite Ho. by intros [= <-]. Qed.

(** Queries leave the state as it is. *)
Lemma is_running_final v d s : final (is_running v d s) = s.
Proof.
  unfold is_running, mbind, M_bind, bind. cbv zeta.
  rewrite lookupByName_run. cbn [outcome final].
  destruct (lv_lookupByName (conn v) d (world s)) as [h|e]; [|done].
  unfold emit, ask, lift. cbn.
  by destruct (lv_isActive h (world s)).
Qed.

Lemma is_running_world v d s s' :
  world s' = world s →
  outcome (is_running v d s') = outcome (is_running v d s).
Proof.
  intros Hw. unfold is_running, mbind, M_bind, bind. cbv zeta.
  rewrite !lookupByName_run. cbn [outcome final]. rewrite Hw.
  destruct (lv_lookupByName (conn v) d (world s)) as [h|e]; [|done].
  unfold emit, ask, lift. cbn. rewrite Hw.
  by destruct (lv_isActive h (world s)).
Qed.

Lemma is_saved_runs v d s :
  runs (is_saved v d) s (path_exists (get_save_path d) (world s)) s.
Proof. done. Qed.

Lemma running_and_not_saved_runs v d s r :
  outcome (is_running v d s) = Ok r →
  runs (running_and_not_saved v d) s
    (r && negb (path_exists (get_save_path d) (world s))) s.
Proof.
  intros Hr. unfold running_and_not_saved.
  eapply runs_bind; [split; [exact Hr | apply is_running_final]|].
  destruct r; [|done].
  eapply runs_bind; [apply is_saved_runs | done].
Qed.

Lemma post_query {A} (m : M A) s (Q : A → State → Prop) :
  final (m s) = s → (∀ a, Q a s) → post m s Q.
Proof. intros Hf HQ a _. rewrite Hf. apply HQ. Qed.

Lemma running_and_not_saved_final v d s :
  final (running_and_not_saved v d s) = s.
Proof.
  unfold running_and_not_saved.
  destruct (outcome (is_running v d s)) as [r|e] eqn:Ho.
  - rewrite (bind_ok _ _ _ _ Ho). cbn [final]. rewrite is_running_final.
    by destruct r.
  - rewrite (bind_raise _ _ _ _ Ho). apply is_running_final.
Qed.

Lemma post_init (sink : string → M unit) s (Q : LibvirtManager → State → Prop) :
  (∀ c w, Q {| conn := c; show_message := sink |}
            {| world := w; actions := actions s; trays := trays s |}) →
  post (LibvirtManager_init sink) s Q.
Proof.
  intros HQ v. unfold LibvirtManager_init, mbind, M_bind, bind, emit, act,
    lift, mret, M_ret, ret. cbn.
  destruct (lv_open "qemu:///system" (world s)) as [[c|e] w]; cbn; [|done].
  intros [= <-]. apply HQ.
Qed.

Lemma post_value {A} (m : M A) s a s' evs (Q : A → State → Prop) :
  m s = {| outcome := Ok a; final := s'; emitted := evs |} →
  Q a s' → post m s Q.
Proof. intros Hm HQ b. rewrite Hm. by intros [= <-]. Qed.

Ltac post_step :=
  apply post_bind;
  first
    [ apply post_init; intros ? ?
    | apply post_query; [apply is_running_final|intros ?]
    | apply post_query; [apply running_and_not_saved_final|intros ?]
    | apply post_query; [reflexivity|intros ?]
    | eapply post_value; [reflexivity|] ];
  cbn [world actions trays].

Lemma create_tray_icon_built (self : VirtTray) (item : Item) (s : State)
    (ic : TrayIcon) :
  outcome (create_tray_icon self item s) = Ok ic →
  built self item s ic
  ∧ (length (actions s) + 7
     ≤ length (actions (final (create_tray_icon self item s))))%nat.
Proof.
  revert ic.
  change (post (create_tray_icon self item) s
            (λ ic s', built self item s ic
                      ∧ (length (actions s) + 7 ≤ length (actions s'))%nat)).
  unfold create_tray_icon. repeat post_step.
  apply post_ret. cbn [actions].
  split.
  - constructor; try reflexivity;
      cbn [startAction forceShutdownAction saveAction restoreAction];
      repeat (rewrite length_alter || rewrite length_app); cbn [length]; lia.
  - repeat (rewrite length_alter || rewrite length_app). cbn [length]. lia.
Qed.

End Icons.

(** ** The menu when it is about to be shown *)
Section Menu.
Context `{Env}.

Lemma update_menu_runs (v : LibvirtManager) (a1 a2 a3 a4 : nat) (item : Item)
    (s : State) (running : bool) :
  outcome (is_running v (domain item) s) = Ok running →
  let saved := path_exists (get_save_path (domain item)) (world s) in
  runs (update_menu v a1 a2 a3 a4 item) s ()
    {| world := world s;
       actions :=
         alter (set_flag saved) a4
           (alter (set_flag (running && negb saved)) a3
              (alter (set_flag running) a2
                 (alter (set_flag (negb running)) a1 (actions s))));
       trays := trays s |}.
Proof.
  intros Hr saved. unfold update_menu.
  assert (Hrun : ∀ s', world s' = world s →
                   runs (is_running v (domain item)) s' running s').
  { intros s' Hw. split; [|apply is_running_final].
    by rewrite (is_running_world _ _ _ _ Hw). }
  eapply runs_bind; [by split|].
  eapply runs_bind; [by apply Hrun|].
  eapply runs_bind; [by split|]. cbn [world actions trays].
  eapply runs_bind; [by apply Hrun|].
  eapply runs_bind; [by split|]. cbn [world actions trays].
  eapply runs_bind.
  { apply running_and_not_saved_runs.
    erewrite is_running_world; [exact Hr | reflexivity]. }
  cbn [world actions trays].
  eapply runs_bind; [by split|]. cbn [world actions trays].
  eapply runs_bind; [apply is_saved_runs|]. cbn [world actions trays].
  by split.
Qed.

Lemma lookup_flag (b : bool) (a : nat) (l : list QAction) :
  (a < length l)%nat → enabled <$> alter (set_flag b) a l !! a = Some b.
Proof.
  intros Hlt. rewrite list_lookup_alter_eq.
  destruct (lookup_lt_is_Some_2 l a Hlt) as [q ->]. done.
Qed.

Lemma lookup_flag_ne (b : bool) (a a' : nat) (l : list QAction) :
  a ≠ a' → alter (set_flag b) a l !! a' = l !! a'.
Proof. apply list_lookup_alter_ne. Qed.

(** C1. Every time the [aboutToShow] hook of a tray icon runs, in whatever
    state the actions were left, and the hypervisor answers the running
    query, the hook returns with Start enabled iff the domain is not running,
    Force Shutdown enabled iff it is running, Save enabled iff it is running
    and has no save file, and Restore enabled iff it has a save file: the
    flags are those of the world at that moment, which the hook does not
    change. *)
Theorem update_menu_enables_by_state (self : VirtTray) (item : Item)
    (s0 : State) (ic : TrayIcon) (s : State) (running : bool) :
  outcome (create_tray_icon self item s0) = Ok ic →
  (length (actions (final (create_tray_icon self item s0)))
   ≤ length (actions s))%nat →
  outcome (is_running (tray_virt ic) (domain item) s) = Ok running →
  let saved := path_exists (get_save_path (domain item)) (world s) in
  let r := aboutToShow ic s in
  outcome r = Ok ()
  ∧ world (final r) = world s
  ∧ outcome (is_saved (tray_virt ic) (domain item) s) = Ok saved
  ∧ enabled <$> actions (final r) !! startAction ic = Some (negb running)
  ∧ enabled <$> actions (final r) !! forceShutdownAction ic = Some running
  ∧ enabled <$> actions (final r) !! saveAction ic
      = Some (running && negb saved)
  ∧ enabled <$> actions (final r) !! restoreAction ic = Some saved.
Proof.
  intros Hic Hlen Hr saved.
  destruct (create_tray_icon_built self item s0 ic Hic) as [Hb Hseven].
  rewrite (built_on_show _ _ _ _ Hb). cbn zeta.
  destruct (update_menu_runs (tray_virt ic) (startAction ic)
              (forceShutdownAction ic) (saveAction ic) (restoreAction ic)
              item s running Hr) as [Ho Hf].
  rewrite Ho, Hf. cbn [world actions].
  rewrite (built_start _ _ _ _ Hb), (built_force _ _ _ _ Hb),
    (built_save _ _ _ _ Hb), (built_restore _ _ _ _ Hb).
  set (n := length (actions s0)) in *.
  repeat split.
  - rewrite !lookup_flag_ne by lia. apply lookup_flag. lia.
  - rewrite !lookup_flag_ne by lia. apply lookup_flag.
    rewrite length_alter. lia.
  - rewrite !lookup_flag_ne by lia. apply lookup_flag.
    rewrite !length_alter. lia.
  - apply lookup_flag. rewrite !length_alter. lia.
Qed.

End Menu.

Lemma update_menu_enables_by_state_witness :
  let r0 := create_tray_icon (tray_of (Sim.manager print) [item_web01])
              item_web01 web01_stopped in
  match outcome r0 with
  | Ok ic =>
      enabled <$> actions (final (aboutToShow ic (final r0))) !! startAction ic
        = Some true
      ∧ enabled <$> actions (final (aboutToShow ic (final r0)))
                      !! forceShutdownAction ic = Some false
      ∧ enabled <$> actions (final (aboutToShow ic (final r0))) !! saveAction ic
        = Some false
      ∧ enabled <$> actions (final (aboutToShow ic (final r0)))
                      !! restoreAction ic = Some false
  | Raise _ => False
  end.
Proof.
  intros r0.
  assert (Hret : returned (outcome r0) = true) by (vm_compute; reflexivity).
  destruct (outcome r0) as [ic|e] eqn:Hic; [|done].
  destruct (update_menu_enables_by_state
              (tray_of (Sim.manager print) [item_web01]) item_web01
              web01_stopped ic (final r0) false Hic)
    as (_ & _ & _ & H1 & H2 & H3 & H4).
  - apply le_n.
  - destruct (tray_virt ic) as [[] sink]. vm_compute. reflexivity.
  - assert (Hs : path_exists (get_save_path (domain item_web01))
                   (world (final r0)) = false) by (vm_compute; reflexivity).
    rewrite Hs in H3, H4. exact (conj H1 (conj H2 (conj H3 H4))).
Defined.

(** ** Where notifications go *)
Section Sinks.
Context `{Env}.

Lemma session_emits (P : Event → Prop) (v : LibvirtManager) (d : string) :
  (∀ msg, emits P (show_message v msg)) →
  (∀ call, P (Libvirt call)) →
  emits P (is_running v d) ∧ emits P (is_saved v d)
  ∧ emits P (save v d) ∧ emits P (restore v d)
  ∧ emits P (start v d) ∧ emits P (force_shutdown v d).
Proof.
  intros Hsink Hlv.
  unfold is_running, is_saved, save, restore, start, force_shutdown,
    lookupByName, os_path_exists.
  repeat split; repeat (emits_step; try apply Hsink; try apply Hlv).
Qed.

Lemma batch_emits (P : Event → Prop) (self : VirtTray) :
  (∀ msg, emits P (show_message (virt self) msg)) →
  (∀ call, P (Libvirt call)) →
  emits P (save_all self) ∧ emits P (restore_all self).
Proof.
  intros Hsink Hlv. unfold save_all, restore_all.
  split; apply emits_for_each; intros item;
    destruct (session_emits P (virt self) (domain item) Hsink Hlv)
      as (Hr & Hs & Hsave & Hrestore & _);
    (apply emits_bind; [done|]); intros [|]; done || apply (emits_ret P).
Qed.

Lemma create_tray_icons_built (self : VirtTray) (l : list Item) (s : State)
    (icons : list TrayIcon) (ic : TrayIcon) :
  outcome (create_tray_icons self l s) = Ok icons →
  ic ∈ icons →
  ∃ item s', item ∈ l ∧ built self item s' ic.
Proof.
  revert s icons. induction l as [|item l IH]; intros s icons; simpl.
  - intros [= <-] Hin. by apply elem_of_nil in Hin.
  - destruct (outcome (create_tray_icon self item s)) as [t|e] eqn:Ht.
    2: { by rewrite (bind_raise _ _ _ _ Ht). }
    rewrite (bind_ok _ _ _ _ Ht). cbn [outcome].
    destruct (outcome (create_tray_icons self l
                         (final (create_tray_icon self item s))))
      as [ts|e] eqn:Hts.
    2: { by rewrite (bind_raise _ _ _ _ Hts). }
    rewrite (bind_ok _ _ _ _ Hts). cbn [outcome].
    intros [= <-] [->|Hin]%elem_of_cons.
    + exists item, s. split; [by left|].
      by apply create_tray_icon_built.
    + destruct (IH _ _ Hts Hin) as (item' & s' & Hin' & Hb).
      exists item', s'. split; [by right | done].
Qed.

End Sinks.

(** On the simulated host, with ["web01"] running: Save All prints its
    notifications, the icon's own Save shows them on the icon. *)
Example save_all_prints_save_shows :
  (λ ic, emitted (saveAll_triggered ic
                    (final (main config_web01 web01_running))))
    <$> icons_of (main config_web01 web01_running)
  = [ [ Libvirt (LvLookupByName "web01"); Libvirt (LvIsActive "web01");
        Stdout "saving web01";
        Libvirt (LvLookupByName "web01");
        Libvirt (LvSave "web01" "/var/lib/libvirt/qemu/save/web01.save");
        Stdout "saved to /var/lib/libvirt/qemu/save/web01.save" ] ]
  ∧ (λ ic, emitted (save_triggered ic
                      (final (main config_web01 web01_running))))
      <$> icons_of (main config_web01 web01_running)
    = [ [ ShowMessage 0 "Virtray" "saving web01" 3000;
          Libvirt (LvLookupByName "web01");
          Libvirt (LvSave "web01" "/var/lib/libvirt/qemu/save/web01.save");
          ShowMessage 0 "Virtray"
            "saved to /var/lib/libvirt/qemu/save/web01.save" 3000 ] ].
Proof. split; vm_compute; reflexivity. Qed.

Example open_virt_manager_activates_on_third_attempt :
  outcome (open_virt_manager "web01" console_appears_third) = Ok ()
  ∧ emitted (open_virt_manager "web01" console_appears_third)
    = [ Exec "virt-manager --connect=qemu:///system --show-domain-console=web01";
        Exec "wmctrl -l"; Sleep 100;
        Exec "wmctrl -l"; Sleep 100;
        Exec "wmctrl -l"; Exec "wmctrl -ia 0x01600003" ].
Proof. split; vm_compute; reflexivity. Qed.

Example open_virt_manager_gives_up_after_ten :
  outcome (open_virt_manager "web01" console_never_appears) = Ok ()
  ∧ emitted (open_virt_manager "web01" console_never_appears)
    = Exec "virt-manager --connect=qemu:///system --show-domain-console=web01"
      :: rounds 10
  ∧ slept (emitted (open_virt_manager "web01" console_never_appears)) = 1000%Z.
Proof. repeat split; vm_compute; reflexivity. Qed.

Example trigger_virt_manager_opens_when_closed :
  emitted (trigger_virt_manager "web01" console_appears_third)
  = [ Exec "wmctrl -l";
      Exec "virt-manager --connect=qemu:///system --show-domain-console=web01";
      Exec "wmctrl -l"; Sleep 100;
      Exec "wmctrl -l"; Exec "wmctrl -ia 0x01600003" ].
Proof. vm_compute. reflexivity. Qed.

(** * Further properties of the program *)

(** ** The hypervisor session *)
Section SessionCalls.
Context `{Env}.

Lemma yields_elim {A} (m : M A) s o s' evs :
  yields m s o s' evs →
  outcome (m s) = o ∧ final (m s) = s' ∧ emitted (m s) = evs.
Proof. unfold yields. by intros ->. Qed.

Lemma yields_bind {A B} (m : M A) (k : A → M B) s a s1 e1 o s2 e2 :
  yields m s (Ok a) s1 e1 → yields (k a) s1 o s2 e2 →
  yields (m ≫= k) s o s2 (e1 ++ e2).
Proof.
  unfold yields. intros Hm Hk.
  rewrite (bind_ok m k s a) by by rewrite Hm.
  rewrite Hm. cbn [final emitted]. by rewrite Hk.
Qed.

Lemma yields_bind_raise {A B} (m : M A) (k : A → M B) s e s1 e1 :
  yields m s (Raise e) s1 e1 → yields (m ≫= k) s (Raise e) s1 e1.
Proof.
  unfold yields. intros Hm.
  rewrite (bind_raise m k s e) by by rewrite Hm. by rewrite Hm.
Qed.

Lemma yields_emit e s : yields (emit e) s (Ok ()) s [e].
Proof. done. Qed.

Lemma yields_ret {A} (a : A) s : yields (mret a) s (Ok a) s [].
Proof. done. Qed.

Lemma yields_ask {A} (q : World → A) s : yields (ask q) s (Ok (q (world s))) s [].
Proof. done. Qed.

Lemma yields_act {A} (c : World → A * World) s :
  yields (act c) s (Ok (fst (c (world s)))) (with_world s (snd (c (world s)))) [].
Proof. unfold yields, act, with_world. by destruct (c (world s)). Qed.

Lemma yields_lift {A} (o : Outcome A) s : yields (lift o) s o s [].
Proof. by destruct o. Qed.

Lemma yields_lookupByName self d s :
  yields (lookupByName self d) s (lv_lookupByName (conn self) d (world s)) s
    [Libvirt (LvLookupByName d)].
Proof. apply lookupByName_run. Qed.

(** A mutator of the session: notify, look the domain up, call libvirt,
    notify again. *)
Lemma yields_mutator (self : LibvirtManager) (d : string) (s : State)
    (before after : Event) (call_event : Event)
    (call : Dom → World → Outcome unit * World) :
  match lv_lookupByName (conn self) d (world s) with
  | Raise e =>
      yields (emit before;; dom ← lookupByName self d;
              emit call_event;; o ← act (call dom); lift o;; emit after)
        s (Raise e) s [before; Libvirt (LvLookupByName d)]
  | Ok h =>
      yields (emit before;; dom ← lookupByName self d;
              emit call_event;; o ← act (call dom); lift o;; emit after)
        s (fst (call h (world s))) (with_world s (snd (call h (world s))))
        ([before; Libvirt (LvLookupByName d); call_event]
         ++ (if returned (fst (call h (world s))) then [after] else []))
  end.
Proof.
  pose proof (yields_lookupByName self d s) as Hl.
  destruct (lv_lookupByName (conn self) d (world s)) as [h|e].
  - pose proof (yields_act (call h) s) as Hc.
    destruct (call h (world s)) as [[[]|e] w']; cbn [fst snd returned] in *.
    + eapply (yields_bind _ _ _ _ _ [before]); [apply yields_emit|].
      eapply (yields_bind _ _ _ _ _ [_]); [exact Hl|].
      eapply (yields_bind _ _ _ _ _ [call_event]); [apply yields_emit|].
      eapply (yields_bind _ _ _ _ _ []); [exact Hc|].
      eapply (yields_bind _ _ _ _ _ []); [apply yields_lift|].
      apply yields_emit.
    + eapply (yields_bind _ _ _ _ _ [before]); [apply yields_emit|].
      eapply (yields_bind _ _ _ _ _ [_]); [exact Hl|].
      eapply (yields_bind _ _ _ _ _ [call_event] _ _ []); [apply yields_emit|].
      eapply (yields_bind _ _ _ _ _ [] _ _ []); [exact Hc|].
      apply yields_bind_raise, yields_lift.
  - eapply (yields_bind _ _ _ _ _ [before]); [apply yields_emit|].
    apply yields_bind_raise. exact Hl.
Qed.

(** X1. [is_running] raises what [lookupByName] raises for a domain the
    hypervisor does not know, having made that one call only; it answers
    true exactly when [isActive] gives 1; and in every case it leaves the
    state as it was. *)
Theorem is_running_looks_up_then_asks (self : LibvirtManager) (d : string)
    (s : State) :
  final (is_running self d s) = s
  ∧ match lv_lookupByName (conn self) d (world s) with
    | Raise e =>
        outcome (is_running self d s) = Raise e
        ∧ emitted (is_running self d s) = [Libvirt (LvLookupByName d)]
    | Ok h =>
        emitted (is_running self d s)
          = [Libvirt (LvLookupByName d); Libvirt (LvIsActive d)]
        ∧ match lv_isActive h (world s) with
          | Raise e => outcome (is_running self d s) = Raise e
          | Ok z => outcome (is_running self d s) = Ok (z =? 1)%Z
          end
    end.
Proof.
  split; [apply is_running_final|].
  unfold is_running.
  pose proof (yields_lookupByName self d s) as Hl.
  destruct (lv_lookupByName (conn self) d (world s)) as [h|e].
  - assert (Hy : yields
                   (dom ← lookupByName self d;
                    emit (Libvirt (LvIsActive d));;
                    o ← ask (lv_isActive dom); r ← lift o; mret (r =? 1)%Z)
                   s (match lv_isActive h (world s) with
                      | Ok z => Ok (z =? 1)%Z
                      | Raise e => Raise e
                      end) s
                   [Libvirt (LvLookupByName d); Libvirt (LvIsActive d)]).
    { eapply (yields_bind _ _ _ _ _ [_]); [exact Hl|].
      eapply (yields_bind _ _ _ _ _ [_] _ _ []); [apply yields_emit|].
      eapply (yields_bind _ _ _ _ _ [] _ _ []); [apply yields_ask|].
      destruct (lv_isActive h (world s)) as [z|e].
      - eapply (yields_bind _ _ _ _ _ []); [apply yields_lift|].
        apply yields_ret.
      - apply yields_bind_raise, yields_lift. }
    apply yields_elim in Hy as (Ho & _ & He). split; [exact He|].
    by destruct (lv_isActive h (world s)).
  - assert (Hy : yields
                   (dom ← lookupByName self d;
                    emit (Libvirt (LvIsActive d));;
                    o ← ask (lv_isActive dom); r ← lift o; mret (r =? 1)%Z)
                   s (Raise e) s [Libvirt (LvLookupByName d)]).
    { apply yields_bind_raise. exact Hl. }
    by apply yields_elim in Hy as (Ho & _ & He).
Qed.

(** X2. [save]: the ["saving D"] notification comes first; an unknown domain
    ends the call there, before any save is asked of libvirt; otherwise the
    save is asked for the domain's save path, and ["saved to <path>"] is
    notified only if libvirt's save returned. *)
Theorem save_notifies_around_the_call (self : LibvirtManager) (d : string)
    (s : State) (note : string → Event) :
  notifies_with note self →
  match lv_lookupByName (conn self) d (world s) with
  | Raise e =>
      outcome (save self d s) = Raise e
      ∧ final (save self d s) = s
      ∧ emitted (save self d s)
          = [note ("saving " +:+ d); Libvirt (LvLookupByName d)]
  | Ok h =>
      let call := lv_save h (get_save_path d) (world s) in
      outcome (save self d s) = fst call
      ∧ final (save self d s) = with_world s (snd call)
      ∧ emitted (save self d s)
          = [ note ("saving " +:+ d); Libvirt (LvLookupByName d);
              Libvirt (LvSave d (get_save_path d)) ]
            ++ (if returned (fst call)
                then [note ("saved to " +:+ get_save_path d)] else [])
  end.
Proof.
  intros Hsink. unfold save. rewrite !Hsink.
  pose proof (yields_mutator self d s (note ("saving " +:+ d)) (note ("saved to " +:+ get_save_path d))
                (Libvirt (LvSave d (get_save_path d))) (λ dom, lv_save dom (get_save_path d))) as Hy.
  destruct (lv_lookupByName (conn self) d (world s)) as [h|e];
    by apply yields_elim in Hy.
Qed.

(** X3. [restore] looks no domain up: it notifies ["restoring D"], asks
    libvirt to restore from the domain's save path, and notifies
    ["restored from <path>"] only if that call returned; libvirt's exception
    is the call's exception. *)
Theorem restore_notifies_around_the_call (self : LibvirtManager) (d : string)
    (s : State) (note : string → Event) :
  notifies_with note self →
  let call := lv_restore (conn self) (get_save_path d) (world s) in
  outcome (restore self d s) = fst call
  ∧ final (restore self d s) = with_world s (snd call)
  ∧ emitted (restore self d s)
      = [ note ("restoring " +:+ d); Libvirt (LvRestore (get_save_path d)) ]
        ++ (if returned (fst call)
            then [note ("restored from " +:+ get_save_path d)] else []).
Proof.
  intros Hsink. unfold restore. rewrite !Hsink. cbn zeta.
  pose proof (yields_act (lv_restore (conn self) (get_save_path d)) s) as Hc.
  apply yields_elim.
  destruct (lv_restore (conn self) (get_save_path d) (world s))
    as [[[]|e] w']; cbn [fst snd returned] in *.
  - eapply (yields_bind _ _ _ _ _ [_]); [apply yields_emit|].
    eapply (yields_bind _ _ _ _ _ [_]); [apply yields_emit|].
    eapply (yields_bind _ _ _ _ _ []); [exact Hc|].
    eapply (yields_bind _ _ _ _ _ []); [apply yields_lift|].
    apply yields_emit.
  - eapply (yields_bind _ _ _ _ _ [_]); [apply yields_emit|].
    eapply (yields_bind _ _ _ _ _ [_] _ _ []); [apply yields_emit|].
    eapply (yields_bind _ _ _ _ _ [] _ _ []); [exact Hc|].
    apply yields_bind_raise, yields_lift.
Qed.

(** X4. [start]: ["starting D"] is notified first; an unknown domain ends
    the call before libvirt is asked to create it; otherwise the domain is
    created, and ["started D"] is notified only if the creation returned (it
    raises, for one, when the domain is running already). *)
Theorem start_notifies_around_the_call (self : LibvirtManager) (d : string)
    (s : State) (note : string → Event) :
  notifies_with note self →
  match lv_lookupByName (conn self) d (world s) with
  | Raise e =>
      outcome (start self d s) = Raise e
      ∧ final (start self d s) = s
      ∧ emitted (start self d s)
          = [note ("starting " +:+ d); Libvirt (LvLookupByName d)]
  | Ok h =>
      let call := lv_create h (world s) in
      outcome (start self d s) = fst call
      ∧ final (start self d s) = with_world s (snd call)
      ∧ emitted (start self d s)
          = [ note ("starting " +:+ d); Libvirt (LvLookupByName d);
              Libvirt (LvCreate d) ]
            ++ (if returned (fst call) then [note ("started " +:+ d)] else [])
  end.
Proof.
  intros Hsink. unfold start. rewrite !Hsink.
  pose proof (yields_mutator self d s (note ("starting " +:+ d)) (note ("started " +:+ d))
                (Libvirt (LvCreate d)) (λ dom, lv_create dom)) as Hy.
  destruct (lv_lookupByName (conn self) d (world s)) as [h|e];
    by apply yields_elim in Hy.
Qed.

(** X5. [force_shutdown]: ["force shutting down D"] is notified first; an
    unknown domain ends the call before libvirt is asked to destroy it;
    otherwise the domain is destroyed, and ["force shut down D"] is notified
    only if the destruction returned. *)
Theorem force_shutdown_notifies_around_the_call (self : LibvirtManager)
    (d : string) (s : State) (note : string → Event) :
  notifies_with note self →
  match lv_lookupByName (conn self) d (world s) with
  | Raise e =>
      outcome (force_shutdown self d s) = Raise e
      ∧ final (force_shutdown self d s) = s
      ∧ emitted (force_shutdown self d s)
          = [note ("force shutting down " +:+ d); Libvirt (LvLookupByName d)]
  | Ok h =>
      let call := lv_destroy h (world s) in
      outcome (force_shutdown self d s) = fst call
      ∧ final (force_shutdown self d s) = with_world s (snd call)
      ∧ emitted (force_shutdown self d s)
          = [ note ("force shutting down " +:+ d); Libvirt (LvLookupByName d);
              Libvirt (LvDestroy d) ]
            ++ (if returned (fst call)
                then [note ("force shut down " +:+ d)] else [])
  end.
Proof.
  intros Hsink. unfold force_shutdown. rewrite !Hsink.
  pose proof (yields_mutator self d s (note ("force shutting down " +:+ d)) (note ("force shut down " +:+ d))
                (Libvirt (LvDestroy d)) (λ dom, lv_destroy dom)) as Hy.
  destruct (lv_lookupByName (conn self) d (world s)) as [h|e];
    by apply yields_elim in Hy.
Qed.

(** X6. [get_save_path] is injective as a function on strings: two domain
    names get the same path string exactly when they are the same name.
    This speaks of the path strings only, not of which file of the file
    system a path string reaches. *)
Theorem save_paths_do_not_collide (d1 d2 : string) :
  get_save_path d1 = get_save_path d2 ↔ d1 = d2.
Proof. split; [apply get_save_path_inj | by intros ->]. Qed.

End SessionCalls.

Lemma save_notifies_around_the_call_witness :
  outcome (save (Sim.manager print) "web01" (Sim.host [] [] []))
    = Raise LibvirtError
  ∧ emitted (save (Sim.manager print) "web01" (Sim.host [] [] []))
    = [Stdout "saving web01"; Libvirt (LvLookupByName "web01")].
Proof.
  pose proof (save_notifies_around_the_call (Sim.manager print) "web01"
                (Sim.host [] [] []) Stdout (λ _, eq_refl)) as Hw.
  assert (Hl : lv_lookupByName (conn (Sim.manager print)) "web01"
                 (world (Sim.host [] [] [])) = Raise LibvirtError)
    by (vm_compute; reflexivity).
  rewrite Hl in Hw. destruct Hw as (Ho & _ & He).
  exact (conj Ho He).
Defined.

Lemma restore_notifies_around_the_call_witness :
  emitted (restore (Sim.manager print) "a" a_saved_b_not_c_saved)
  = [ Stdout "restoring a";
      Libvirt (LvRestore "/var/lib/libvirt/qemu/save/a.save");
      Stdout "restored from /var/lib/libvirt/qemu/save/a.save" ].
Proof.
  destruct (restore_notifies_around_the_call (Sim.manager print) "a"
              a_saved_b_not_c_saved Stdout (λ _, eq_refl)) as (_ & _ & He).
  rewrite He. vm_compute. reflexivity.
Defined.

Lemma start_notifies_around_the_call_witness :
  emitted (start (Sim.manager print) "web01" web01_stopped)
  = [ Stdout "starting web01"; Libvirt (LvLookupByName "web01");
      Libvirt (LvCreate "web01"); Stdout "started web01" ].
Proof.
  pose proof (start_notifies_around_the_call (Sim.manager print) "web01"
                web01_stopped Stdout (λ _, eq_refl)) as Hw.
  assert (Hl : lv_lookupByName (conn (Sim.manager print)) "web01"
                 (world web01_stopped) = Ok "web01")
    by (vm_compute; reflexivity).
  rewrite Hl in Hw. destruct Hw as (_ & _ & He).
  rewrite He. vm_compute. reflexivity.
Defined.

Lemma force_shutdown_notifies_around_the_call_witness :
  emitted (force_shutdown (Sim.manager print) "web01" web01_stopped)
  = [ Stdout "force shutting down web01"; Libvirt (LvLookupByName "web01");
      Libvirt (LvDestroy "web01") ].
Proof.
  pose proof (force_shutdown_notifies_around_the_call (Sim.manager print)
                "web01" web01_stopped Stdout (λ _, eq_refl)) as Hw.
  assert (Hl : lv_lookupByName (conn (Sim.manager print)) "web01"
                 (world web01_stopped) = Ok "web01")
    by (vm_compute; reflexivity).
  rewrite Hl in Hw. destruct Hw as (_ & _ & He).
  rewrite He. vm_compute. reflexivity.
Defined.

(** ** The window functions *)
Section WindowCalls.
Context `{Env}.

Lemma lstrip_blank s : blank s = true → Py.lstrip s = "".
Proof.
  induction s as [|c s IH]; simpl; [done|].
  intros [Hc Hs]%andb_true_iff. rewrite Hc. by apply IH.
Qed.

Lemma strip_blank s : blank s = true → Py.strip s = "".
Proof. intros Hs. unfold Py.strip. by rewrite (lstrip_blank _ Hs). Qed.

Lemma string_app_nil_r (s : string) : s +:+ "" = s.
Proof.
  induction s as [|c s IH]; [done|].
  change (String c s +:+ "") with (String c (s +:+ "")). by rewrite IH.
Qed.

Lemma split_ws_nil_blank n s : Py.split_ws n s = [] → blank s = true.
Proof.
  destruct (lstrip_split s) as (g & Hs & Hg & Ht).
  intros Hnil. rewrite Hs in Hnil. rewrite (split_ws_blank _ _ _ Hg) in Hnil.
  destruct Ht as [Ht|Ht].
  - rewrite Ht, string_app_nil_r in Hs. by rewrite Hs.
  - destruct n.
    + simpl in Hnil. rewrite (lstrip_title _ Ht) in Hnil.
      by destruct (Py.lstrip s).
    + rewrite (split_ws_title _ _ Ht) in Hnil.
      by destruct (Py.take_field (Py.lstrip s)).
Qed.

Lemma parse_listing_blank out :
  blank out = true → parse_listing out = Raise ValueError.
Proof. intros Hb. unfold parse_listing. by rewrite (strip_blank _ Hb). Qed.

Lemma window_open_in_blank p out :
  blank out = true → window_open_in p out = Raise IndexError.
Proof. intros Hb. unfold window_open_in. by rewrite (strip_blank _ Hb). Qed.

Lemma try_get_wmctrl_item_raise (p : string → bool) (s : State) e :
  outcome (get_wmctrl_items s) = Raise e →
  try_get_wmctrl_item p s
  = {| outcome := Raise e; final := listed s; emitted := [Exec "wmctrl -l"] |}.
Proof.
  intros Hi. unfold try_get_wmctrl_item. rewrite (bind_raise _ _ _ _ Hi).
  by rewrite get_wmctrl_items_run.
Qed.

(** X7. When no window is listed ([wmctrl -l] prints nothing, or only
    whitespace), [get_wmctrl_items] does not return an empty list: it raises
    [ValueError], and so does [try_get_wmctrl_item], for every predicate. *)
Theorem blank_listing_is_a_value_error (p : string → bool) (s : State) :
  blank (fst (shell "wmctrl -l" (world s))) = true →
  outcome (get_wmctrl_items s) = Raise ValueError
  ∧ outcome (try_get_wmctrl_item p s) = Raise ValueError.
Proof.
  intros Hb.
  assert (Hi : outcome (get_wmctrl_items s) = Raise ValueError).
  { rewrite get_wmctrl_items_run. cbn [outcome]. by apply parse_listing_blank. }
  split; [exact Hi|]. by rewrite (try_get_wmctrl_item_raise p s _ Hi).
Qed.

(** X8. A click on the tray icon while no window is listed opens no
    console: [is_window_open] raises [IndexError] on the blank listing, and
    [trigger_virt_manager] ends with that exception after the one
    [wmctrl -l], without launching the viewer. *)
Theorem trigger_with_no_window_listed (d : string) (p : string → bool)
    (s : State) :
  blank (fst (shell "wmctrl -l" (world s))) = true →
  outcome (is_window_open p s) = Raise IndexError
  ∧ outcome (trigger_virt_manager d s) = Raise IndexError
  ∧ emitted (trigger_virt_manager d s) = [Exec "wmctrl -l"].
Proof.
  intros Hb.
  assert (Ho : ∀ q, outcome (is_window_open q s) = Raise IndexError).
  { intros q. rewrite is_window_open_run. cbn [outcome].
    by apply window_open_in_blank. }
  split; [apply Ho|]. unfold trigger_virt_manager.
  rewrite (bind_raise _ _ _ _ (Ho _)). by rewrite is_window_open_run.
Qed.

(** X9. [open_virt_manager] while no window is listed after the launch: the
    viewer is launched, the first attempt raises [ValueError] on the blank
    listing, and the call ends there, without sleeping or retrying. *)
Theorem open_virt_manager_with_no_window_listed (d : string) (s : State) :
  blank (fst (shell "wmctrl -l" (snd (shell (launch_command d) (world s)))))
    = true →
  outcome (open_virt_manager d s) = Raise ValueError
  ∧ emitted (open_virt_manager d s)
      = [Exec (launch_command d); Exec "wmctrl -l"].
Proof.
  intros Hb.
  destruct (open_virt_manager_run d s) as (-> & _ & ->).
  pose proof (focus_loop_step d 9
                (with_world s (snd (shell (launch_command d) (world s)))))
    as Hstep.
  cbn zeta in Hstep. unfold attempt in Hstep. cbn [with_world world] in Hstep.
  rewrite (parse_listing_blank _ Hb) in Hstep.
  destruct Hstep as [-> ->]. done.
Qed.

Lemma first_match_split (p : string → bool) (items : list WmctrlItem) :
  match first_match p items with
  | Some item =>
      ∃ before after,
        items = before ++ item :: after
        ∧ p (title item) = true
        ∧ Forall (λ x, p (title x) = false) before
  | None => Forall (λ x, p (title x) = false) items
  end.
Proof.
  induction items as [|x items IH]; simpl; [done|].
  destruct (p (title x)) eqn:Hp.
  - exists [], items. by repeat split.
  - destruct (first_match p items) as [item|].
    + destruct IH as (before & after & -> & Hi & Hb).
      exists (x :: before), after. repeat split; [done|]. by constructor.
    + by constructor.
Qed.

(** X10. On a listing that can be read, [try_get_wmctrl_item] returns the
    first window, in listing order, whose title satisfies the predicate,
    together with [True]; and [(None, False)] exactly when no title does. *)
Theorem try_get_wmctrl_item_finds_the_first (p : string → bool) (s : State)
    (items : list WmctrlItem) :
  outcome (get_wmctrl_items s) = Ok items →
  (∃ before item after,
     items = before ++ item :: after
     ∧ p (title item) = true
     ∧ Forall (λ x, p (title x) = false) before
     ∧ outcome (try_get_wmctrl_item p s) = Ok (Some item, true))
  ∨ (Forall (λ x, p (title x) = false) items
     ∧ outcome (try_get_wmctrl_item p s) = Ok (None, false)).
Proof.
  intros Hi. rewrite (try_get_wmctrl_item_run p s items Hi). cbn [outcome].
  pose proof (first_match_split p items) as Hs.
  pose proof (first_match_existsb p items) as He.
  destruct (first_match p items) as [item|].
  - left. destruct Hs as (before & after & Heq & Hp & Hb).
    destruct He as (_ & _ & ->). by exists before, item, after.
  - right. by rewrite He.
Qed.

(** The loop of [close_window], for any predicate. *)
Lemma close_loop_any (p : string → bool) (items : list WmctrlItem) (s : State) :
  let r := for_each items (λ item,
             if p (title item)
             then _ ← execute_command ("wmctrl -ic " +:+ window_id item);
                  mret ()
             else mret ()) s in
  outcome r = Ok ()
  ∧ actions (final r) = actions s ∧ trays (final r) = trays s
  ∧ emitted r
    = (λ item, Exec ("wmctrl -ic " +:+ window_id item))
        <$> List.filter (λ item, p (title item)) items.
Proof.
  revert s. induction items as [|item items IH]; intros s; [done|].
  cbn zeta. cbn [for_each List.filter].
  set (body := λ item : WmctrlItem,
         if p (title item)
         then _ ← execute_command ("wmctrl -ic " +:+ window_id item); mret ()
         else mret ()) in *.
  assert (Hturn : yields (body item) s (Ok ())
                    (if p (title item)
                     then with_world s
                            (snd (shell ("wmctrl -ic " +:+ window_id item)
                                    (world s)))
                     else s)
                    (if p (title item)
                     then [Exec ("wmctrl -ic " +:+ window_id item)] else [])).
  { unfold body. destruct (p (title item)); [|done].
    eapply (yields_bind _ _ _ _ _ [_] _ _ []); [|apply yields_ret].
    apply execute_command_run. }
  destruct (yields_elim _ _ _ _ _ Hturn) as (Ho & Hf & He).
  rewrite (bind_ok _ _ _ _ Ho). cbn [outcome final emitted].
  destruct (IH (final (body item s))) as (Ho' & Ha' & Ht' & He').
  rewrite Ho', Ha', Ht', He', He, Hf.
  destruct (p (title item)); done.
Qed.

(** X11. [close_window], for any predicate: on a listing that can be read it
    issues one close command for every window whose title satisfies the
    predicate, in listing order, and no other command (none at all when no
    title does); on a listing that cannot be read it raises the parse error
    and closes nothing.  It touches no Qt object. *)
Theorem close_window_closes_every_match (p : string → bool) (s : State) :
  actions (final (close_window p s)) = actions s
  ∧ trays (final (close_window p s)) = trays s
  ∧ match outcome (get_wmctrl_items s) with
    | Ok items =>
        outcome (close_window p s) = Ok ()
        ∧ emitted (close_window p s)
          = Exec "wmctrl -l"
            :: ((λ item, Exec ("wmctrl -ic " +:+ window_id item))
                  <$> List.filter (λ item, p (title item)) items)
    | Raise e =>
        outcome (close_window p s) = Raise e
        ∧ emitted (close_window p s) = [Exec "wmctrl -l"]
    end.
Proof.
  unfold close_window.
  destruct (outcome (get_wmctrl_items s)) as [items|e] eqn:Hi.
  - rewrite (bind_ok _ _ _ _ Hi). rewrite get_wmctrl_items_run.
    cbn [outcome final emitted].
    destruct (close_loop_any p items (listed s)) as (Ho & Ha & Ht & He).
    cbn zeta in Ho, Ha, Ht, He. by rewrite Ho, Ha, Ht, He.
  - rewrite (bind_raise _ _ _ _ Hi). by rewrite get_wmctrl_items_run.
Qed.

Lemma any_line_matches_raise (p : string → bool) (lines : list string) e :
  any_line_matches p lines = Raise e →
  e = IndexError ∧ ∃ line, line ∈ lines ∧ blank line = true.
Proof.
  induction lines as [|line lines IH]; [done|].
  cbn [any_line_matches].
  destruct (Py.split_ws 3 line) as [|f fs] eqn:Hs.
  - intros [= <-]. split; [done|]. exists line.
    split; [by left | by apply (split_ws_nil_blank 3)].
  - destruct (Py.last_item (f :: fs)) as [t|] eqn:Hl.
    2: { unfold Py.last_item in Hl. by rewrite last_cons in Hl;
         destruct (last fs). }
    destruct (p t); [done|].
    intros (-> & l & Hin & Hb)%IH. split; [done|].
    exists l. split; [by right | done].
Qed.

(** X12. [is_window_open] never raises the [ValueError] of the other
    readers: the only exception it raises is [IndexError], and only when the
    stripped listing has a line without any field (as the single empty line
    of an empty listing). *)
Theorem is_window_open_raises_only_on_a_blank_line (p : string → bool)
    (s : State) (e : Exn) :
  outcome (is_window_open p s) = Raise e →
  e = IndexError
  ∧ ∃ line,
      line ∈ Py.split_char Py.newline
               (Py.strip (fst (shell "wmctrl -l" (world s))))
      ∧ blank line = true.
Proof.
  rewrite is_window_open_run. cbn [outcome]. unfold window_open_in.
  apply any_line_matches_raise.
Qed.

(** X13. The target title tells the domains apart: the console window of
    one domain satisfies the predicate of another domain's target title only
    when the two domains have the same name. *)
Theorem target_title_names_its_domain (d1 d2 : string) :
  virt_manager_target_title d1 (d2 +:+ " on QEMU/KVM") = true ↔ d2 = d1.
Proof.
  rewrite target_title_spec. split; [|by intros ->].
  apply string_app_cancel_r.
Qed.

End WindowCalls.

Lemma blank_listing_is_a_value_error_witness :
  outcome (get_wmctrl_items (Sim.host [] [] [])) = Raise ValueError
  ∧ outcome (try_get_wmctrl_item (virt_manager_target_title "web01")
               (Sim.host [] [] [])) = Raise ValueError.
Proof.
  apply (blank_listing_is_a_value_error (virt_manager_target_title "web01")
           (Sim.host [] [] [])).
  vm_compute. reflexivity.
Defined.

Lemma trigger_with_no_window_listed_witness :
  outcome (trigger_virt_manager "web01" (Sim.host [] [] []))
    = Raise IndexError
  ∧ emitted (trigger_virt_manager "web01" (Sim.host [] [] []))
    = [Exec "wmctrl -l"].
Proof.
  apply (trigger_with_no_window_listed "web01"
           (virt_manager_target_title "web01") (Sim.host [] [] [])).
  vm_compute. reflexivity.
Defined.

Lemma open_virt_manager_with_no_window_listed_witness :
  outcome (open_virt_manager "web01" (Sim.host [] [] [])) = Raise ValueError
  ∧ emitted (open_virt_manager "web01" (Sim.host [] [] []))
    = [ Exec "virt-manager --connect=qemu:///system --show-domain-console=web01";
        Exec "wmctrl -l" ].
Proof.
  apply (open_virt_manager_with_no_window_listed "web01" (Sim.host [] [] [])).
  vm_compute. reflexivity.
Defined.

Lemma try_get_wmctrl_item_finds_the_first_witness :
  outcome (try_get_wmctrl_item (virt_manager_target_title "web01")
             two_consoles_open)
  = Ok (Some {| window_id := "0x01600003"; title := "web01 on QEMU/KVM" |},
        true).
Proof.
  destruct (try_get_wmctrl_item_finds_the_first
              (virt_manager_target_title "web01") two_consoles_open
              [ {| window_id := "0x01600003"; title := "web01 on QEMU/KVM" |};
                {| window_id := "0x02000007"; title := "Terminal" |};
                {| window_id := "0x01600009"; title := "web01 on QEMU/KVM" |} ])
    as [(before & item & after & Heq & Hp & Hb & Ho)|[Hall Ho]].
  - vm_compute. reflexivity.
  - rewrite Ho. destruct before as [|x before].
    + by injection Heq as <- _.
    + injection Heq as <- _. by apply Forall_cons in Hb as [? _].
  - by apply Forall_cons in Hall as [? _].
Defined.

Lemma is_window_open_raises_only_on_a_blank_line_witness :
  ∃ line,
    line ∈ Py.split_char Py.newline
             (Py.strip (fst (shell "wmctrl -l" (world (Sim.host [] [] [])))))
    ∧ blank line = true.
Proof.
  apply (is_window_open_raises_only_on_a_blank_line (λ _, false)
           (Sim.host [] [] []) IndexError).
  vm_compute. reflexivity.
Defined.

(** ** What the window functions do and do not *)
Section WindowEffects.
Context `{Env}.

Lemma keeps_qt_ret {A} (a : A) : keeps_qt (mret a : M A).
Proof. done. Qed.

Lemma keeps_qt_raise {A} e : keeps_qt (raise e : M A).
Proof. done. Qed.

Lemma keeps_qt_emit e : keeps_qt (emit e).
Proof. done. Qed.

Lemma keeps_qt_ask {A} (q : World → A) : keeps_qt (ask q).
Proof. done. Qed.

Lemma keeps_qt_act {A} (c : World → A * World) : keeps_qt (act c).
Proof. intros s. unfold act. by destruct (c (world s)). Qed.

Lemma keeps_qt_lift {A} (o : Outcome A) : keeps_qt (lift o).
Proof. by destruct o. Qed.

Lemma keeps_qt_bind {A B} (m : M A) (k : A → M B) :
  keeps_qt m → (∀ a, keeps_qt (k a)) → keeps_qt (m ≫= k).
Proof.
  intros Hm Hk s. unfold mbind, M_bind, bind. cbv zeta.
  destruct (outcome (m s)); cbn [final]; [|apply Hm].
  destruct (Hk a (final (m s))) as [-> ->]. apply Hm.
Qed.

Lemma keeps_qt_for_each {A} (l : list A) (body : A → M unit) :
  (∀ x, keeps_qt (body x)) → keeps_qt (for_each l body).
Proof.
  intros Hb. induction l as [|x l IH]; [done|].
  apply keeps_qt_bind; [apply Hb | intros _; apply IH].
Qed.

Lemma tame_execute_command P command :
  P (Exec command) → tame P (execute_command command).
Proof.
  intros HP. unfold execute_command. split.
  - apply emits_bind; [by apply emits_emit | intros _; apply emits_act].
  - apply keeps_qt_bind; [apply keeps_qt_emit | intros _; apply keeps_qt_act].
Qed.

Lemma tame_bind {A B} P (m : M A) (k : A → M B) :
  tame P m → (∀ a, tame P (k a)) → tame P (m ≫= k).
Proof.
  intros [Hm1 Hm2] Hk. split.
  - apply emits_bind; [done | intros a; apply Hk].
  - apply keeps_qt_bind; [done | intros a; apply Hk].
Qed.

Lemma tame_ret {A} P (a : A) : tame P (mret a : M A).
Proof. split; [apply (emits_ret P) | apply keeps_qt_ret]. Qed.

Lemma tame_raise {A} P e : tame P (raise e : M A).
Proof. split; [apply emits_raise | apply keeps_qt_raise]. Qed.

Lemma tame_lift {A} P (o : Outcome A) : tame P (lift o).
Proof. split; [apply emits_lift | apply keeps_qt_lift]. Qed.

Lemma tame_for_each {A} P (l : list A) (body : A → M unit) :
  (∀ x, tame P (body x)) → tame P (for_each l body).
Proof.
  intros Hb. split.
  - apply emits_for_each. intros x. apply Hb.
  - apply keeps_qt_for_each. intros x. apply Hb.
Qed.

Lemma tame_get_wmctrl_items P : P (Exec "wmctrl -l") → tame P get_wmctrl_items.
Proof.
  intros HP. unfold get_wmctrl_items.
  apply tame_bind; [by apply tame_execute_command | intros out; apply tame_lift].
Qed.

Lemma tame_is_window_open P p : P (Exec "wmctrl -l") → tame P (is_window_open p).
Proof.
  intros HP. unfold is_window_open.
  apply tame_bind; [by apply tame_execute_command | intros out; apply tame_lift].
Qed.

Lemma tame_close_window P p :
  P (Exec "wmctrl -l") → (∀ id, P (Exec ("wmctrl -ic " +:+ id))) →
  tame P (close_window p).
Proof.
  intros Hl Hc. unfold close_window.
  apply tame_bind; [by apply tame_get_wmctrl_items|]. intros items.
  apply tame_for_each. intros item. destruct (p (title item)).
  - apply tame_bind; [by apply tame_execute_command | intros _; apply tame_ret].
  - apply tame_ret.
Qed.

Lemma tame_focus_loop P d n :
  P (Exec "wmctrl -l") → P (Sleep 100) →
  (∀ id, P (Exec ("wmctrl -ia " +:+ id))) →
  tame P (focus_loop d n).
Proof.
  intros Hl Hs Ha. induction n as [|n IH]; [apply tame_ret|].
  cbn [focus_loop]. apply tame_bind.
  - unfold try_get_wmctrl_item.
    apply tame_bind; [by apply tame_get_wmctrl_items|]. intros items.
    destruct (first_match _ items); apply tame_ret.
  - intros [item [|]].
    + destruct item as [it|]; [|apply tame_raise].
      apply tame_bind; [by apply tame_execute_command | intros _; apply tame_ret].
    + apply tame_bind; [|intros _; exact IH].
      unfold time_sleep. split.
      * apply emits_bind; [by apply emits_emit | intros _; apply emits_act].
      * apply keeps_qt_bind; [apply keeps_qt_emit | intros _; apply keeps_qt_act].
Qed.

Lemma tame_open_virt_manager P d :
  P (Exec (launch_command d)) → P (Exec "wmctrl -l") → P (Sleep 100) →
  (∀ id, P (Exec ("wmctrl -ia " +:+ id))) →
  tame P (open_virt_manager d).
Proof.
  intros Hv Hl Hs Ha. unfold open_virt_manager.
  apply tame_bind; [by apply tame_execute_command|].
  intros _. by apply tame_focus_loop.
Qed.

Lemma slept_no_sleep (evs : list Event) : Forall no_sleep evs → slept evs = 0%Z.
Proof.
  induction 1 as [|e evs He _ IH]; [done|].
  destruct e; cbn [slept]; done.
Qed.

Lemma open_virt_manager_slept (d : string) (s : State) :
  (slept (emitted (open_virt_manager d s)) ≤ 1000)%Z.
Proof.
  destruct (open_virt_manager_run d s) as (_ & _ & ->).
  destruct (focus_loop_trace d 10
              (with_world s (snd (shell (launch_command d) (world s)))))
    as (k & tail & Hk & _ & -> & Hend).
  destruct (focus_loop_tail _ _ _ _ _ _ Hend) as (Hs0 & _ & _).
  cbn [slept]. rewrite slept_rounds. lia.
Qed.

(** X14. Whatever the listings are, a call of [trigger_virt_manager] runs
    only the window commands of its domain ([wmctrl -l], the viewer launch,
    [wmctrl -ia] and [wmctrl -ic] on some id) and 100 ms sleeps: it makes no
    libvirt call and no notification, it touches no Qt object, and it sleeps
    one second at most in all. *)
Theorem trigger_virt_manager_effects (d : string) (s : State) :
  Forall (window_effect d) (emitted (trigger_virt_manager d s))
  ∧ actions (final (trigger_virt_manager d s)) = actions s
  ∧ trays (final (trigger_virt_manager d s)) = trays s
  ∧ (slept (emitted (trigger_virt_manager d s)) ≤ 1000)%Z.
Proof.
  assert (Htame : tame (window_effect d) (trigger_virt_manager d)).
  { unfold trigger_virt_manager. apply tame_bind.
    - apply tame_is_window_open. unfold window_effect. auto.
    - intros [|].
      + apply tame_close_window; unfold window_effect; eauto 6.
      + apply tame_open_virt_manager; unfold window_effect; eauto 6. }
  destruct Htame as [He Hq]. split; [apply He|].
  split; [apply Hq|]. split; [apply Hq|].
  unfold trigger_virt_manager.
  pose proof (is_window_open_run (virt_manager_target_title d) s) as Hrun.
  destruct (window_open_in (virt_manager_target_title d)
              (fst (shell "wmctrl -l" (world s)))) as [[|]|e] eqn:Hw.
  - rewrite (bind_ok _ _ _ true) by by rewrite Hrun.
    rewrite Hrun. cbn [final emitted app slept].
    rewrite slept_no_sleep; [lia|].
    apply (tame_close_window no_sleep); done.
  - rewrite (bind_ok _ _ _ false) by by rewrite Hrun.
    rewrite Hrun. cbn [final emitted app slept].
    apply open_virt_manager_slept.
  - rewrite (bind_raise _ _ _ e) by by rewrite Hrun.
    rewrite Hrun. cbn. lia.
Qed.

End WindowEffects.

(** ** The menu hook, when the hypervisor does not answer *)
Section MenuHook.
Context `{Env}.

Lemma is_running_raise_yields v d s e :
  outcome (is_running v d s) = Raise e →
  yields (is_running v d) s (Raise e) s (emitted (is_running v d s)).
Proof.
  intros Ho. unfold yields.
  pose proof (is_running_final v d s) as Hf.
  destruct (is_running v d s) as [o f evs]. cbn in *. by subst.
Qed.

Lemma update_menu_raises (v : LibvirtManager) (a1 a2 a3 a4 : nat)
    (item : Item) (s : State) (e : Exn) :
  outcome (is_running v (domain item) s) = Raise e →
  yields (update_menu v a1 a2 a3 a4 item) s (Raise e) s
    (Stdout "update_menu" :: emitted (is_running v (domain item) s)).
Proof.
  intros Ho. unfold update_menu.
  eapply (yields_bind _ _ _ _ _ [_]); [apply yields_emit|].
  apply yields_bind_raise. by apply is_running_raise_yields.
Qed.

(** X15. When the running query raises as the menu is about to be shown
    (the domain is no longer known to the hypervisor), the hook of a tray
    icon raises that exception having printed its line and made the one
    lookup: no flag is set, so the menu keeps the flags it had. *)
Theorem menu_hook_raises_and_keeps_the_flags (self : VirtTray) (item : Item)
    (s0 : State) (ic : TrayIcon) (s : State) (e : Exn) :
  outcome (create_tray_icon self item s0) = Ok ic →
  outcome (is_running (tray_virt ic) (domain item) s) = Raise e →
  outcome (aboutToShow ic s) = Raise e
  ∧ final (aboutToShow ic s) = s
  ∧ emitted (aboutToShow ic s)
      = Stdout "update_menu"
        :: emitted (is_running (tray_virt ic) (domain item) s).
Proof.
  intros Hic Hr.
  destruct (create_tray_icon_built self item s0 ic Hic) as [Hb _].
  rewrite (built_on_show _ _ _ _ Hb).
  by apply yields_elim, update_menu_raises.
Qed.

Lemma lookup_text_alter (b : bool) (i a : nat) (l : list QAction) :
  text <$> alter (set_flag b) i l !! a = text <$> l !! a.
Proof.
  destruct (decide (i = a)) as [->|Hne].
  - rewrite list_lookup_alter_eq. by destruct (l !! a).
  - by rewrite list_lookup_alter_ne.
Qed.

(** X16. The hook changes nothing but the enabled flags of its own four
    actions: every action keeps its text, every other action keeps its flag
    as well, no action is added or removed, and the tray icons and the world
    are as before — whether the hook returns or raises. *)
Theorem update_menu_changes_only_its_flags (v : LibvirtManager)
    (a1 a2 a3 a4 : nat) (item : Item) (s : State) :
  let r := update_menu v a1 a2 a3 a4 item s in
  world (final r) = world s
  ∧ trays (final r) = trays s
  ∧ length (actions (final r)) = length (actions s)
  ∧ (∀ a, text <$> actions (final r) !! a = text <$> actions s !! a)
  ∧ (∀ a, a ∉ [a1; a2; a3; a4] →
          actions (final r) !! a = actions s !! a).
Proof.
  cbn zeta.
  destruct (outcome (is_running v (domain item) s)) as [running|e] eqn:Hr.
  - destruct (update_menu_runs v a1 a2 a3 a4 item s running Hr) as [_ ->].
    cbn [world trays actions]. repeat split.
    + by rewrite !length_alter.
    + intros a. by rewrite !lookup_text_alter.
    + intros a Ha.
      rewrite !list_lookup_alter_ne; [done|set_solver..].
  - destruct (yields_elim _ _ _ _ _ (update_menu_raises v a1 a2 a3 a4 item s e Hr))
      as (_ & -> & _).
    done.
Qed.

End MenuHook.

Lemma menu_hook_raises_and_keeps_the_flags_witness :
  let r0 := create_tray_icon (tray_of (Sim.manager print) [item_web01])
              item_web01 web01_stopped in
  match outcome r0 with
  | Ok ic =>
      outcome (aboutToShow ic (Sim.host [] [] [])) = Raise LibvirtError
      ∧ final (aboutToShow ic (Sim.host [] [] [])) = Sim.host [] [] []
  | Raise _ => False
  end.
Proof.
  intros r0.
  assert (Hret : returned (outcome r0) = true) by (vm_compute; reflexivity).
  destruct (outcome r0) as [ic|e] eqn:Hic; [|done].
  destruct (menu_hook_raises_and_keeps_the_flags
              (tray_of (Sim.manager print) [item_web01]) item_web01
              web01_stopped ic (Sim.host [] [] []) LibvirtError Hic)
    as (Ho & Hf & _).
  - destruct (tray_virt ic) as [[] sink]. vm_compute. reflexivity.
  - exact (conj Ho Hf).
Defined.

(** ** What [create_tray_icon] leaves behind *)
Section Installation.
Context `{Env}.

Lemma ends_bind {A B} (m : M A) (k : A → M B) s Qok Qerr :
  ends m s (λ a s', ends (k a) s' Qok Qerr) Qerr → ends (m ≫= k) s Qok Qerr.
Proof.
  unfold ends. destruct (outcome (m s)) as [a|e] eqn:Ho.
  - by rewrite (bind_ok _ _ _ _ Ho).
  - by rewrite (bind_raise _ _ _ _ Ho).
Qed.

Lemma ends_ret {A} (a : A) s (Qok : A → State → Prop) Qerr :
  Qok a s → ends (mret a) s Qok Qerr.
Proof. done. Qed.

Lemma ends_value {A} (m : M A) s a s' evs (Qok : A → State → Prop) Qerr :
  m s = {| outcome := Ok a; final := s'; emitted := evs |} →
  Qok a s' → ends m s Qok Qerr.
Proof. unfold ends. by intros ->. Qed.

Lemma ends_init (sink : string → M unit) s
    (Qok : LibvirtManager → State → Prop) Qerr :
  (∀ c w, Qok {| conn := c; show_message := sink |}
            {| world := w; actions := actions s; trays := trays s |}) →
  (∀ e w, Qerr e {| world := w; actions := actions s; trays := trays s |}) →
  ends (LibvirtManager_init sink) s Qok Qerr.
Proof.
  intros Hok Herr.
  pose proof (yields_act (lv_open "qemu:///system") s) as Ha.
  unfold with_world in Ha.
  assert (Hy : ∃ evs,
             match fst (lv_open "qemu:///system" (world s)) with
             | Ok c =>
                 yields (LibvirtManager_init sink) s
                   (Ok {| conn := c; show_message := sink |})
                   {| world := snd (lv_open "qemu:///system" (world s));
                      actions := actions s; trays := trays s |} evs
             | Raise e =>
                 yields (LibvirtManager_init sink) s (Raise e)
                   {| world := snd (lv_open "qemu:///system" (world s));
                      actions := actions s; trays := trays s |} evs
             end).
  { unfold LibvirtManager_init.
    destruct (fst (lv_open "qemu:///system" (world s))) as [c|e]; eexists.
    - eapply yields_bind; [apply yields_emit|].
      eapply yields_bind; [exact Ha|].
      eapply yields_bind; [apply yields_lift|]. apply yields_ret.
    - eapply yields_bind; [apply yields_emit|].
      eapply yields_bind; [exact Ha|].
      apply yields_bind_raise, yields_lift. }
  destruct Hy as [evs Hy]. unfold ends.
  destruct (fst (lv_open "qemu:///system" (world s))) as [c|e];
    apply yields_elim in Hy as (-> & -> & _); [apply Hok | apply Herr].
Qed.

Lemma ends_is_running v d s (Qok : bool → State → Prop) Qerr :
  (∀ r, outcome (is_running v d s) = Ok r → Qok r s) →
  (∀ e, Qerr e s) →
  ends (is_running v d) s Qok Qerr.
Proof.
  intros Hok Herr. unfold ends. rewrite is_running_final.
  destruct (outcome (is_running v d s)); [by apply Hok | apply Herr].
Qed.

Lemma ends_running_and_not_saved v d s (Qok : bool → State → Prop) Qerr :
  (∀ b, outcome (running_and_not_saved v d s) = Ok b → Qok b s) →
  (∀ e, Qerr e s) →
  ends (running_and_not_saved v d) s Qok Qerr.
Proof.
  intros Hok Herr. unfold ends. rewrite running_and_not_saved_final.
  destruct (outcome (running_and_not_saved v d s)); [by apply Hok | apply Herr].
Qed.

Lemma alter_last {A} (f : A → A) (l : list A) (x : A) :
  alter f (length l) (l ++ [x]) = l ++ [f x].
Proof.
  replace (length l) with (length l + 0) by lia.
  by rewrite alter_app_r.
Qed.

End Installation.

Ltac ends_step :=
  apply ends_bind;
  first
    [ apply ends_init; intros ? ?
    | apply ends_is_running; [intros ? ?|intros ?]
    | apply ends_running_and_not_saved; [intros ? ?|intros ?]
    | eapply ends_value; [reflexivity|] ];
  cbn [world actions trays].

Section Installed.
Context `{Env}.

Lemma create_tray_icon_ends (self : VirtTray) (item : Item) (s : State) :
  ends (create_tray_icon self item) s
    (λ ic s', installed item s ic s')
    (λ _ s', abandoned item s s').
Proof.
  unfold create_tray_icon. repeat ends_step.
  all: try (unfold abandoned; cbn [trays]; by rewrite alter_last).
  rename H0 into Hr1, H1 into Hr2, H2 into Hb.
  apply ends_ret.
  match type of Hr1 with outcome (is_running ?m _ _) = _ => set (v := m) in * end.
  assert (Hany : ∀ s', world s' = w →
                   outcome (is_running v (domain item) s') = Ok r).
  { intros s' Hw. rewrite <- Hr1. by apply is_running_world. }
  assert (r0 = r) as ->.
  { rewrite Hany in Hr2 by reflexivity. by injection Hr2. }
  assert (b = r && negb (path_exists (get_save_path (domain item)) w)) as ->.
  { match type of Hb with
    | outcome (running_and_not_saved _ _ ?st) = _ =>
        destruct (running_and_not_saved_runs v (domain item) st r
                    (Hany st eq_refl)) as [Ho _]
    end.
    rewrite Ho in Hb. by injection Hb. }
  clear Hr1 Hr2 Hb.
  exists r. unfold installed. cbn [world actions trays tray_virt trayIcon].
  repeat rewrite alter_last.
  split; [by apply Hany|]. split.
  { rewrite <- !app_assoc. done. }
  split; [done|]. split; [done|]. split.
  { unfold menu_ids.
    cbn [startAction forceShutdownAction saveAction restoreAction
         saveAllAction restoreAllAction quitAction seq].
    rewrite !length_app. cbn [length].
    repeat (f_equal; try lia). }
  split; [|done].
  intros reason Hreason. by destruct reason.
Qed.

(** X17. When [create_tray_icon] returns, the state holds exactly one more
    tray icon, shown, with the item's icon, the domain as tooltip and the new
    menu, and exactly seven more actions, in menu order Start, Force
    Shutdown, Save, Restore, Save All, Restore All, Quit; the first four are
    enabled by the domain's state at creation (as the menu hook sets them)
    and the last three are enabled.  Every tray icon and action that existed
    before is as it was. *)
Theorem create_tray_icon_installs_the_menu (self : VirtTray) (item : Item)
    (s : State) (ic : TrayIcon) :
  outcome (create_tray_icon self item s) = Ok ic →
  let s' := final (create_tray_icon self item s) in
  ∃ running : bool,
    outcome (is_running (tray_virt ic) (domain item) s') = Ok running
    ∧ actions s'
      = actions s
        ++ [ {| text := "Start"; enabled := negb running |};
             {| text := "Force Shutdown"; enabled := running |};
             {| text := "Save";
                enabled :=
                  running
                  && negb (path_exists (get_save_path (domain item))
                             (world s')) |};
             {| text := "Restore";
                enabled :=
                  path_exists (get_save_path (domain item)) (world s') |};
             {| text := "Save All"; enabled := true |};
             {| text := "Restore All"; enabled := true |};
             {| text := "Quit"; enabled := true |} ]
    ∧ trays s'
      = trays s
        ++ [ {| tray_icon := icon item; toolTip := domain item;
                contextMenu := Some (menu_ids ic); visible := true |} ]
    ∧ trayIcon ic = length (trays s)
    ∧ menu_ids ic = seq (length (actions s)) 7.
Proof.
  intros Hic. pose proof (create_tray_icon_ends self item s) as He.
  unfold ends in He. rewrite Hic in He.
  destruct He as (running & Hr & Ha & Ht & Hi & Hm & _).
  exists running. done.
Qed.

(** X18. When [create_tray_icon] raises (the hypervisor cannot be reached,
    or does not know the domain), the tray icon it had made stays behind with
    its tooltip, but without a menu and never shown; the icons that existed
    before are as they were. *)
Theorem create_tray_icon_raises_before_showing (self : VirtTray)
    (item : Item) (s : State) (e : Exn) :
  outcome (create_tray_icon self item s) = Raise e →
  trays (final (create_tray_icon self item s))
  = trays s
    ++ [ {| tray_icon := icon item; toolTip := domain item;
            contextMenu := None; visible := false |} ].
Proof.
  intros Hic. pose proof (create_tray_icon_ends self item s) as He.
  unfold ends in He. by rewrite Hic in He.
Qed.

(** X19. Of the activations of a tray icon only the plain click
    ([Trigger]) does anything: it toggles the console of the icon's domain;
    a context, double or middle click, or an unknown reason, returns at once
    with no effect and no change of state. *)
Theorem only_trigger_activates (self : VirtTray) (item : Item) (s0 : State)
    (ic : TrayIcon) (reason : ActivationReason) (s : State) :
  outcome (create_tray_icon self item s0) = Ok ic →
  activated ic Trigger = trigger_virt_manager (domain item)
  ∧ (reason ≠ Trigger →
     outcome (activated ic reason s) = Ok ()
     ∧ final (activated ic reason s) = s
     ∧ emitted (activated ic reason s) = []).
Proof.
  intros Hic. pose proof (create_tray_icon_ends self item s0) as He.
  unfold ends in He. rewrite Hic in He.
  destruct He as (running & _ & _ & _ & _ & _ & Hact & _).
  destruct (create_tray_icon_built self item s0 ic Hic) as [Hb _].
  split; [apply (built_on_activated _ _ _ _ Hb)|].
  intros Hreason. by rewrite (Hact reason Hreason).
Qed.

Lemma create_tray_icons_install (self : VirtTray) (l : list Item) (s : State)
    (icons : list TrayIcon) :
  outcome (create_tray_icons self l s) = Ok icons →
  let s' := final (create_tray_icons self l s) in
  length icons = length l
  ∧ trayIcon <$> icons = seq (length (trays s)) (length l)
  ∧ length (actions s') = length (actions s) + 7 * length l
  ∧ ∃ new,
      trays s' = trays s ++ new
      ∧ toolTip <$> new = domain <$> l
      ∧ tray_icon <$> new = icon <$> l
      ∧ Forall (λ t, visible t = true ∧ is_Some (contextMenu t)) new.
Proof.
  revert s icons. induction l as [|item l IH]; intros s icons.
  { intros [= <-]. cbn. repeat split; [lia|]. exists []. by rewrite app_nil_r. }
  cbn [create_tray_icons].
  pose proof (create_tray_icon_ends self item s) as He. unfold ends in He.
  destruct (outcome (create_tray_icon self item s)) as [t|e] eqn:Ht.
  2: { by rewrite (bind_raise _ _ _ _ Ht). }
  rewrite (bind_ok _ _ _ _ Ht). cbn [outcome final].
  set (s1 := final (create_tray_icon self item s)) in *.
  destruct (outcome (create_tray_icons self l s1)) as [ts|e] eqn:Hts.
  2: { by rewrite (bind_raise _ _ _ _ Hts). }
  rewrite (bind_ok _ _ _ _ Hts). cbn [outcome final mret M_ret ret].
  intros [= <-].
  destruct He as (running & _ & Ha & Htr & Hi & _).
  destruct (IH s1 ts Hts) as (Hlen & Hids & Hacts & new & Hnew & Htip & Hicon & Hvis).
  cbn zeta in Hacts, Hnew.
  rewrite Htr in Hids, Hnew. rewrite Ha in Hacts.
  rewrite !length_app in Hids, Hacts.
  unfold menu_of in Hacts. cbn [length] in Hids, Hacts.
  repeat split.
  - cbn [length]. by rewrite Hlen.
  - rewrite fmap_cons, Hi, Hids. cbn [length seq].
    f_equal. f_equal. lia.
  - rewrite Hacts. cbn [length]. lia.
  - eexists (_ :: new). rewrite Hnew, <- app_assoc. split; [done|].
    rewrite !fmap_cons, Htip, Hicon. cbn [toolTip tray_icon].
    repeat split. constructor; [|done]. by split.
Qed.

(** X20. When [main] returns, it has made one tray icon per configured
    item, in configuration order: the icons follow the existing ones, each
    shown with a menu, its item's icon and its domain as tooltip, and seven
    actions were added per item. *)
Theorem main_shows_one_icon_per_item (cfg : Config) (s : State)
    (icons : list TrayIcon) :
  outcome (main cfg s) = Ok icons →
  let s' := final (main cfg s) in
  length icons = length (items cfg)
  ∧ trayIcon <$> icons = seq (length (trays s)) (length (items cfg))
  ∧ length (actions s') = length (actions s) + 7 * length (items cfg)
  ∧ ∃ new,
      trays s' = trays s ++ new
      ∧ toolTip <$> new = domain <$> items cfg
      ∧ tray_icon <$> new = icon <$> items cfg
      ∧ Forall (λ t, visible t = true ∧ is_Some (contextMenu t)) new.
Proof.
  unfold main, VirtTray_main. intros Hmain.
  pose proof (ends_init print s
                (λ _ s1, actions s1 = actions s ∧ trays s1 = trays s)
                (λ _ _, True)) as Hinit.
  unfold ends in Hinit.
  destruct (outcome (LibvirtManager_init print s)) as [v|e] eqn:Hv.
  2: { by rewrite (bind_raise _ _ _ _ Hv) in Hmain. }
  destruct Hinit as [Ha Ht]; [done..|].
  rewrite (bind_ok _ _ _ _ Hv) in Hmain |- *.
  cbn [outcome final config items] in Hmain |- *.
  pose proof (create_tray_icons_install _ _ _ _ Hmain) as Hi.
  cbn zeta in Hi. by rewrite Ha, Ht in Hi.
Qed.

(** X21. When the hypervisor cannot be reached as [main] starts, [main]
    raises the connection error at once: the one [libvirt.open] is all it
    did, and no tray icon and no action is made. *)
Theorem main_needs_the_hypervisor (cfg : Config) (s : State) (e : Exn) :
  fst (lv_open "qemu:///system" (world s)) = Raise e →
  outcome (main cfg s) = Raise e
  ∧ actions (final (main cfg s)) = actions s
  ∧ trays (final (main cfg s)) = trays s
  ∧ emitted (main cfg s) = [Libvirt (LvOpen "qemu:///system")].
Proof.
  intros Hopen. unfold main.
  assert (Hy : yields (LibvirtManager_init print) s (Raise e)
                 (with_world s (snd (lv_open "qemu:///system" (world s))))
                 [Libvirt (LvOpen "qemu:///system")]).
  { unfold LibvirtManager_init.
    eapply (yields_bind _ _ _ _ _ [_] _ _ []); [apply yields_emit|].
    eapply (yields_bind _ _ _ _ _ [] _ _ []); [apply yields_act|].
    rewrite Hopen. apply yields_bind_raise, yields_lift. }
  apply yields_bind_raise with (k := λ v, VirtTray_main {| virt := v; config := cfg |}) in Hy.
  by apply yields_elim in Hy as (-> & -> & ->).
Qed.

End Installed.

Lemma exception_of_raise {A} (o : Outcome A) (e : Exn) :
  exception_of o = Some e → o = Raise e.
Proof. destruct o; [done|]. by intros [= ->]. Qed.

Lemma create_tray_icon_installs_the_menu_witness :
  let r0 := create_tray_icon (tray_of (Sim.manager print) [item_web01])
              item_web01 web01_stopped in
  match outcome r0 with
  | Ok ic =>
      text <$> actions (final r0)
      = ["Start"; "Force Shutdown"; "Save"; "Restore"; "Save All";
         "Restore All"; "Quit"]
      ∧ enabled <$> actions (final r0)
        = [true; false; false; false; true; true; true]
      ∧ trays (final r0)
        = [ {| tray_icon := "web01.png"; toolTip := "web01";
               contextMenu := Some [0; 1; 2; 3; 4; 5; 6]; visible := true |} ]
  | Raise _ => False
  end.
Proof.
  intros r0.
  assert (Hret : returned (outcome r0) = true) by (vm_compute; reflexivity).
  destruct (outcome r0) as [ic|e] eqn:Hic; [|done].
  destruct (create_tray_icon_installs_the_menu
              (tray_of (Sim.manager print) [item_web01]) item_web01
              web01_stopped ic Hic)
    as (running & Hr & Ha & Ht & _ & Hm).
  fold r0 in Hr, Ha, Ht. rewrite Ht, Hm.
  assert (running = false) as ->.
  { destruct (tray_virt ic) as [[] sink]. vm_compute in Hr. by injection Hr. }
  assert (Hs : path_exists (get_save_path (domain item_web01))
                 (world (final r0)) = false) by (vm_compute; reflexivity).
  rewrite Hs in Ha. rewrite Ha.
  repeat split; vm_compute; reflexivity.
Defined.

Lemma create_tray_icon_raises_before_showing_witness :
  trays (final (create_tray_icon (tray_of (Sim.manager print) [item_web01])
                  item_web01 (Sim.host [] [] [])))
  = [ {| tray_icon := "web01.png"; toolTip := "web01";
         contextMenu := None; visible := false |} ].
Proof.
  apply (create_tray_icon_raises_before_showing
           (tray_of (Sim.manager print) [item_web01]) item_web01
           (Sim.host [] [] []) LibvirtError).
  apply exception_of_raise. vm_compute. reflexivity.
Defined.

Lemma only_trigger_activates_witness :
  let r0 := create_tray_icon (tray_of (Sim.manager print) [item_web01])
              item_web01 web01_stopped in
  match outcome r0 with
  | Ok ic => emitted (activated ic Context two_consoles_open) = []
  | Raise _ => False
  end.
Proof.
  intros r0.
  assert (Hret : returned (outcome r0) = true) by (vm_compute; reflexivity).
  destruct (outcome r0) as [ic|e] eqn:Hic; [|done].
  destruct (only_trigger_activates
              (tray_of (Sim.manager print) [item_web01]) item_web01
              web01_stopped ic Context two_consoles_open Hic) as [_ Hother].
  by destruct Hother as (_ & _ & He).
Defined.

Lemma main_shows_one_icon_per_item_witness :
  trayIcon <$> icons_of (main config_web01 web01_running) = [0].
Proof.
  unfold icons_of.
  assert (Hret : returned (outcome (main config_web01 web01_running)) = true)
    by (vm_compute; reflexivity).
  destruct (outcome (main config_web01 web01_running)) as [icons|e] eqn:Hm;
    [|done].
  by destruct (main_shows_one_icon_per_item config_web01 web01_running icons Hm)
    as (_ & -> & _).
Defined.

Lemma main_needs_the_hypervisor_witness :
  outcome (main config_web01 web01_offline) = Raise LibvirtError
  ∧ trays (final (main config_web01 web01_offline)) = [].
Proof.
  destruct (main_needs_the_hypervisor config_web01 web01_offline LibvirtError)
    as (Ho & _ & Ht & _).
  - reflexivity.
  - exact (conj Ho Ht).
Defined.

(** ** Batches with nothing to do, and what the session never does *)
Section QuietBatches.
Context `{Env}.

Lemma is_running_ok_yields v d s r :
  outcome (is_running v d s) = Ok r →
  yields (is_running v d) s (Ok r) s
    [Libvirt (LvLookupByName d); Libvirt (LvIsActive d)].
Proof.
  intros Ho. pose proof (is_running_final v d s) as Hf.
  assert (He : emitted (is_running v d s)
               = [Libvirt (LvLookupByName d); Libvirt (LvIsActive d)]).
  { revert Ho. unfold is_running.
    pose proof (yields_lookupByName v d s) as Hl.
    destruct (lv_lookupByName (conn v) d (world s)) as [h|e].
    - intros _. rewrite (bind_ok _ _ _ h) by by rewrite Hl.
      rewrite Hl. cbn [final emitted].
      unfold mbind, M_bind, bind, emit, ask, lift. cbn.
      by destruct (lv_isActive h (world s)).
    - rewrite (bind_raise _ _ _ e) by by rewrite Hl. done. }
  unfold yields. destruct (is_running v d s) as [o f evs]. cbn in *.
  by subst.
Qed.

(** X22. Save All with no configured domain running saves nothing and
    notifies nothing: it asks the hypervisor about each domain in
    configuration order (a lookup and an activity query per domain), returns,
    and leaves the state as it was. *)
Theorem save_all_with_none_running (self : VirtTray) (s : State) :
  (∀ item, item ∈ items (config self) →
           outcome (is_running (virt self) (domain item) s) = Ok false) →
  outcome (save_all self s) = Ok ()
  ∧ final (save_all self s) = s
  ∧ emitted (save_all self s)
    = concat ((λ item, [ Libvirt (LvLookupByName (domain item));
                         Libvirt (LvIsActive (domain item)) ])
                <$> items (config self)).
Proof.
  unfold save_all. generalize (items (config self)) as l.
  induction l as [|item l IH]; intros Hall; [done|].
  cbn [for_each].
  assert (Hturn : yields
                    (running ← is_running (virt self) (domain item);
                     if running : bool
                     then save (virt self) (domain item) else mret ())
                    s (Ok ()) s
                    [ Libvirt (LvLookupByName (domain item));
                      Libvirt (LvIsActive (domain item)) ]).
  { rewrite <- (app_nil_r [_; _]). eapply yields_bind.
    - apply is_running_ok_yields, Hall. by left.
    - apply yields_ret. }
  destruct IH as (Ho & Hf & He).
  { intros x Hx. apply Hall. by right. }
  apply yields_elim.
  rewrite fmap_cons. cbn [concat].
  eapply yields_bind; [exact Hturn|].
  unfold yields.
  destruct (for_each l _ s) as [o f evs]. cbn in Ho, Hf, He. by subst.
Qed.

(** X23. Restore All with no configured domain saved does nothing at all:
    no libvirt call, no notification, no change of state. *)
Theorem restore_all_with_none_saved (self : VirtTray) (s : State) :
  (∀ item, item ∈ items (config self) →
           path_exists (get_save_path (domain item)) (world s) = false) →
  outcome (restore_all self s) = Ok ()
  ∧ final (restore_all self s) = s
  ∧ emitted (restore_all self s) = [].
Proof.
  unfold restore_all.
  change (for_each (items (config self))
            (λ item, saved ← is_saved (virt self) (domain item);
                     if saved : bool
                     then restore (virt self) (domain item) else mret ()))
    with (for_each (items (config self)) (restore_turn (virt self))).
  generalize (items (config self)) as l.
  induction l as [|item l IH]; intros Hall; [done|].
  change (for_each (item :: l) (restore_turn (virt self)) s)
    with ((restore_turn (virt self) item
             ≫= λ _, for_each l (restore_turn (virt self))) s).
  assert (Hturn : restore_turn (virt self) item s
                  = {| outcome := Ok (); final := s; emitted := [] |}).
  { rewrite restore_turn_run, Hall; [done | by left]. }
  rewrite (bind_ok _ _ _ ()) by by rewrite Hturn.
  rewrite Hturn. cbn [outcome final emitted app].
  apply IH. intros x Hx. apply Hall. by right.
Qed.

(** X24. The hypervisor session and the two batches never run a shell
    command and never sleep, as long as the session's sink does not: all they
    do is libvirt calls, a file test and notifications. *)
Theorem session_and_batches_run_no_command (self : VirtTray) (d : string) :
  (∀ msg, emits no_command (show_message (virt self) msg)) →
  emits no_command (is_running (virt self) d)
  ∧ emits no_command (is_saved (virt self) d)
  ∧ emits no_command (save (virt self) d)
  ∧ emits no_command (restore (virt self) d)
  ∧ emits no_command (start (virt self) d)
  ∧ emits no_command (force_shutdown (virt self) d)
  ∧ emits no_command (save_all self)
  ∧ emits no_command (restore_all self).
Proof.
  intros Hsink.
  destruct (session_emits no_command (virt self) d Hsink)
    as (H1 & H2 & H3 & H4 & H5 & H6); [done|].
  destruct (batch_emits no_command self Hsink) as [H7 H8]; [done|].
  done.
Qed.

End QuietBatches.

Lemma save_all_with_none_running_witness :
  emitted (save_all (tray_of (Sim.manager print) [item_web01]) web01_stopped)
  = [Libvirt (LvLookupByName "web01"); Libvirt (LvIsActive "web01")].
Proof.
  destruct (save_all_with_none_running
              (tray_of (Sim.manager print) [item_web01]) web01_stopped)
    as (_ & _ & He).
  - intros item ->%list_elem_of_singleton. vm_compute. reflexivity.
  - exact He.
Defined.

Lemma restore_all_with_none_saved_witness :
  emitted (restore_all (tray_of (Sim.manager print) [item_web01])
             web01_stopped) = [].
Proof.
  destruct (restore_all_with_none_saved
              (tray_of (Sim.manager print) [item_web01]) web01_stopped)
    as (_ & _ & He).
  - intros item ->%list_elem_of_singleton. vm_compute. reflexivity.
  - exact He.
Defined.

Lemma session_and_batches_run_no_command_witness :
  Forall no_command
    (emitted (save_all (tray_of (Sim.manager print) [item_web01])
                web01_running)).
Proof.
  destruct (session_and_batches_run_no_command
              (tray_of (Sim.manager print) [item_web01]) "web01")
    as (_ & _ & _ & _ & _ & _ & Hall & _).
  - intros msg. by apply emits_emit.
  - apply Hall.
Defined.

(** * The sinks of the batch actions and of the single actions *)
Section BatchSinks.
Context `{Env}.

(** What [save] emits, with the sink written out. *)
Lemma save_trace (v : LibvirtManager) (d : string) (s : State)
    (note : string → Event) :
  notifies_with note v →
  emitted (save v d s)
  = note ("saving " +:+ d) :: Libvirt (LvLookupByName d)
    :: match lv_lookupByName (conn v) d (world s) with
       | Raise _ => []
       | Ok h =>
           Libvirt (LvSave d (get_save_path d))
           :: (if returned (fst (lv_save h (get_save_path d) (world s)))
               then [note ("saved to " +:+ get_save_path d)] else [])
       end.
Proof.
  intros Hsink. unfold save. rewrite !Hsink.
  pose proof (yields_mutator v d s (note ("saving " +:+ d))
                (note ("saved to " +:+ get_save_path d))
                (Libvirt (LvSave d (get_save_path d)))
                (λ dom, lv_save dom (get_save_path d))) as Hy.
  destruct (lv_lookupByName (conn v) d (world s)) as [h|e];
    by apply yields_elim in Hy as (_ & _ & ->).
Qed.

(** What [restore] emits, with the sink written out. *)
Lemma restore_trace (v : LibvirtManager) (d : string) (s : State)
    (note : string → Event) :
  notifies_with note v →
  emitted (restore v d s)
  = note ("restoring " +:+ d) :: Libvirt (LvRestore (get_save_path d))
    :: (if returned (fst (lv_restore (conn v) (get_save_path d) (world s)))
        then [note ("restored from " +:+ get_save_path d)] else []).
Proof.
  intros Hsink. unfold restore. rewrite !Hsink.
  pose proof (yields_act (lv_restore (conn v) (get_save_path d)) s) as Hc.
  match goal with
  | |- emitted (?m s) = ?evs =>
      enough (Hy : yields m s
                     (fst (lv_restore (conn v) (get_save_path d) (world s)))
                     (with_world s
                        (snd (lv_restore (conn v) (get_save_path d) (world s))))
                     evs)
        by (by apply yields_elim in Hy as (_ & _ & ->))
  end.
  destruct (lv_restore (conn v) (get_save_path d) (world s))
    as [[[]|e] w']; cbn [fst snd returned] in *.
  - eapply (yields_bind _ _ _ _ _ [_]); [apply yields_emit|].
    eapply (yields_bind _ _ _ _ _ [_]); [apply yields_emit|].
    eapply (yields_bind _ _ _ _ _ []); [exact Hc|].
    eapply (yields_bind _ _ _ _ _ []); [apply yields_lift|].
    apply yields_emit.
  - eapply (yields_bind _ _ _ _ _ [_]); [apply yields_emit|].
    eapply (yields_bind _ _ _ _ _ [_] _ _ []); [apply yields_emit|].
    eapply (yields_bind _ _ _ _ _ [] _ _ []); [exact Hc|].
    apply yields_bind_raise, yields_lift.
Qed.

(** Save All, once it is through the domains of [l1] and finds the next
    domain running, saves that domain next. *)
Lemma save_all_reaches (v : LibvirtManager) (l1 l2 : list Item) (item : Item)
    (s s1 : State) :
  runs (save_all (tray_of v l1)) s () s1 →
  outcome (is_running v (domain item) s1) = Ok true →
  ∃ rest,
    emitted (save_all (tray_of v (l1 ++ item :: l2)) s)
    = emitted (save_all (tray_of v l1) s)
      ++ [ Libvirt (LvLookupByName (domain item));
           Libvirt (LvIsActive (domain item)) ]
      ++ emitted (save v (domain item) s1) ++ rest.
Proof.
  unfold save_all, tray_of, runs. cbn [virt config items].
  intros [Ho Hf] Hrun. rewrite for_each_app.
  rewrite (bind_ok _ _ _ () Ho), Hf. cbn [emitted for_each].
  match goal with
  | |- context [emitted ((?m ≫= ?k) s1)] =>
      destruct (bind_emitted_prefix m k s1) as [rest ->]
  end.
  exists rest. f_equal. rewrite (app_assoc [_; _]). f_equal.
  apply is_running_ok_yields in Hrun.
  rewrite (bind_ok _ _ _ true) by by rewrite Hrun.
  by rewrite Hrun.
Qed.

(** Restore All, once it is through the domains of [l1] and finds the save
    file of the next domain, restores that domain next. *)
Lemma restore_all_reaches (v : LibvirtManager) (l1 l2 : list Item)
    (item : Item) (s s1 : State) :
  runs (restore_all (tray_of v l1)) s () s1 →
  path_exists (get_save_path (domain item)) (world s1) = true →
  ∃ rest,
    emitted (restore_all (tray_of v (l1 ++ item :: l2)) s)
    = emitted (restore_all (tray_of v l1) s)
      ++ emitted (restore v (domain item) s1) ++ rest.
Proof.
  unfold restore_all, tray_of, runs. cbn [virt config items].
  intros [Ho Hf] Hsaved. rewrite for_each_app.
  rewrite (bind_ok _ _ _ () Ho), Hf. cbn [emitted for_each].
  match goal with
  | |- context [emitted ((?m ≫= ?k) s1)] =>
      destruct (bind_emitted_prefix m k s1) as [rest ->]
  end.
  exists rest. f_equal. f_equal.
  pose proof (restore_turn_run v item s1) as Ht. rewrite Hsaved in Ht.
  unfold restore_turn in Ht. by rewrite Ht.
Qed.

End BatchSinks.

Section MainSinks.
Context `{Env}.

(** C10. For every tray icon that [main] creates, Save All and Restore All
    run on the orchestrator's own session, the one [main] opened with the
    default sink [print].  Whenever Save All, having gone through the
    domains before it, finds a configured domain running, it saves it next
    on that session, and the save prints ["saving D"] and, if libvirt's save
    returned, ["saved to <path>"]; whenever Restore All finds the save file
    of a configured domain, it restores it next on that session, and the
    restore prints ["restoring D"] and, if libvirt's restore returned,
    ["restored from <path>"].  The batches never raise a tray notification.
    The single-domain actions of the icon run on the session that
    [create_tray_icon] opened with the icon's notification sink: Save and
    Restore raise the same notifications as three-second ["Virtray"]
    messages on that icon, and the single actions print nothing. *)
Theorem batch_actions_notify_through_print (cfg : Config) (s : State)
    (icons : list TrayIcon) (ic : TrayIcon) :
  outcome (main cfg s) = Ok icons →
  ic ∈ icons →
  (∃ session : LibvirtManager,
     show_message session = print
     ∧ saveAll_triggered ic = save_all {| virt := session; config := cfg |}
     ∧ restoreAll_triggered ic
       = restore_all {| virt := session; config := cfg |}
     ∧ (∀ l1 item l2 s0 s1,
          items cfg = l1 ++ item :: l2 →
          runs (save_all (tray_of session l1)) s0 () s1 →
          outcome (is_running session (domain item) s1) = Ok true →
          ∃ rest,
            emitted (saveAll_triggered ic s0)
            = emitted (save_all (tray_of session l1) s0)
              ++ [ Libvirt (LvLookupByName (domain item));
                   Libvirt (LvIsActive (domain item)) ]
              ++ emitted (save session (domain item) s1) ++ rest)
     ∧ (∀ l1 item l2 s0 s1,
          items cfg = l1 ++ item :: l2 →
          runs (restore_all (tray_of session l1)) s0 () s1 →
          path_exists (get_save_path (domain item)) (world s1) = true →
          ∃ rest,
            emitted (restoreAll_triggered ic s0)
            = emitted (restore_all (tray_of session l1) s0)
              ++ emitted (restore session (domain item) s1) ++ rest)
     ∧ (∀ d s0,
          emitted (save session d s0)
          = Stdout ("saving " +:+ d) :: Libvirt (LvLookupByName d)
            :: match lv_lookupByName (conn session) d (world s0) with
               | Raise _ => []
               | Ok h =>
                   Libvirt (LvSave d (get_save_path d))
                   :: (if returned
                            (fst (lv_save h (get_save_path d) (world s0)))
                       then [Stdout ("saved to " +:+ get_save_path d)]
                       else [])
               end)
     ∧ (∀ d s0,
          emitted (restore session d s0)
          = Stdout ("restoring " +:+ d)
            :: Libvirt (LvRestore (get_save_path d))
            :: (if returned
                     (fst (lv_restore (conn session) (get_save_path d)
                             (world s0)))
                then [Stdout ("restored from " +:+ get_save_path d)]
                else [])))
  ∧ emits not_tray_message (saveAll_triggered ic)
  ∧ emits not_tray_message (restoreAll_triggered ic)
  ∧ show_message (tray_virt ic) = tray_sink (trayIcon ic)
  ∧ (∃ item, item ∈ items cfg
             ∧ save_triggered ic = save (tray_virt ic) (domain item)
             ∧ restore_triggered ic = restore (tray_virt ic) (domain item)
             ∧ start_triggered ic = start (tray_virt ic) (domain item)
             ∧ forceShutdown_triggered ic
               = force_shutdown (tray_virt ic) (domain item)
             ∧ (∀ s0,
                  emitted (save_triggered ic s0)
                  = ShowMessage (trayIcon ic) "Virtray"
                      ("saving " +:+ domain item) 3000
                    :: Libvirt (LvLookupByName (domain item))
                    :: match lv_lookupByName (conn (tray_virt ic))
                               (domain item) (world s0) with
                       | Raise _ => []
                       | Ok h =>
                           Libvirt (LvSave (domain item)
                                      (get_save_path (domain item)))
                           :: (if returned
                                    (fst (lv_save h
                                            (get_save_path (domain item))
                                            (world s0)))
                               then [ShowMessage (trayIcon ic) "Virtray"
                                       ("saved to "
                                        +:+ get_save_path (domain item))
                                       3000]
                               else [])
                       end)
             ∧ (∀ s0,
                  emitted (restore_triggered ic s0)
                  = ShowMessage (trayIcon ic) "Virtray"
                      ("restoring " +:+ domain item) 3000
                    :: Libvirt (LvRestore (get_save_path (domain item)))
                    :: (if returned
                             (fst (lv_restore (conn (tray_virt ic))
                                     (get_save_path (domain item))
                                     (world s0)))
                        then [ShowMessage (trayIcon ic) "Virtray"
                                ("restored from "
                                 +:+ get_save_path (domain item)) 3000]
                        else [])))
  ∧ emits (tray_message_of (trayIcon ic)) (save_triggered ic)
  ∧ emits (tray_message_of (trayIcon ic)) (restore_triggered ic)
  ∧ emits (tray_message_of (trayIcon ic)) (start_triggered ic)
  ∧ emits (tray_message_of (trayIcon ic)) (forceShutdown_triggered ic).
Proof.
  unfold main, VirtTray_main. intros Hmain Hin.
  destruct (outcome (LibvirtManager_init print s)) as [v|e] eqn:Hv.
  2: { by rewrite (bind_raise _ _ _ _ Hv) in Hmain. }
  rewrite (bind_ok _ _ _ _ Hv) in Hmain. cbn [outcome config items] in Hmain.
  assert (Hprint : show_message v = print).
  { revert Hv. apply (post_init print s (λ v _, show_message v = print)).
    done. }
  assert (Hnote : notifies_with Stdout v).
  { intros msg. by rewrite Hprint. }
  destruct (create_tray_icons_built _ _ _ _ _ Hmain Hin)
    as (item & s' & Hitem & Hb).
  assert (Hshow : notifies_with
                    (λ msg, ShowMessage (trayIcon ic) "Virtray" msg 3000)
                    (tray_virt ic)).
  { intros msg. by rewrite (built_sink _ _ _ _ Hb). }
  destruct (batch_emits not_tray_message {| virt := v; config := cfg |})
    as [Hsa Hra].
  { intros msg. cbn [virt]. rewrite Hprint. by apply emits_emit. }
  { done. }
  destruct (session_emits (tray_message_of (trayIcon ic)) (tray_virt ic)
              (domain item)) as (_ & _ & Hsave & Hrestore & Hstart & Hforce).
  { intros msg. rewrite (built_sink _ _ _ _ Hb). by apply emits_emit. }
  { done. }
  rewrite (built_on_save_all _ _ _ _ Hb), (built_on_restore_all _ _ _ _ Hb),
    (built_on_save _ _ _ _ Hb), (built_on_restore _ _ _ _ Hb),
    (built_on_start _ _ _ _ Hb), (built_on_force _ _ _ _ Hb).
  split.
  - exists v. do 3 (split; [done|]). split; [|split; [|split]].
    + intros l1 it l2 s0 s1 Hitems. destruct cfg as [l].
      cbn [items] in Hitems. subst l. apply save_all_reaches.
    + intros l1 it l2 s0 s1 Hitems. destruct cfg as [l].
      cbn [items] in Hitems. subst l. apply restore_all_reaches.
    + intros d s0. by apply save_trace.
    + intros d s0. by apply restore_trace.
  - do 2 (split; [done|]). split; [apply (built_sink _ _ _ _ Hb)|].
    split; [|done].
    exists item. do 5 (split; [done|]). split.
    + intros s0. by apply (save_trace _ _ _ _ Hshow).
    + intros s0. by apply (restore_trace _ _ _ _ Hshow).
Qed.

End MainSinks.

Lemma batch_actions_notify_through_print_witness :
  returned (outcome (main config_web01 web01_running)) = true
  ∧ Forall (λ ic, emits not_tray_message (saveAll_triggered ic)
                  ∧ emits (tray_message_of (trayIcon ic)) (save_triggered ic)
                  ∧ ∃ rest,
                      emitted (saveAll_triggered ic web01_running)
                      = Libvirt (LvLookupByName "web01")
                        :: Libvirt (LvIsActive "web01")
                        :: Stdout "saving web01" :: rest)
      (icons_of (main config_web01 web01_running)).
Proof.
  split; [vm_compute; reflexivity|].
  unfold icons_of.
  destruct (outcome (main config_web01 web01_running)) as [icons|e] eqn:Hm;
    [|constructor].
  apply Forall_forall. intros ic Hin.
  destruct (batch_actions_notify_through_print config_web01 web01_running
              icons ic Hm Hin)
    as ((session & _ & _ & _ & Hnext & _ & Htrace & _)
        & Hall & _ & _ & _ & Hone & _).
  split; [exact Hall|]. split; [exact Hone|].
  destruct (Hnext [] item_web01 [] web01_running web01_running)
    as [rest Hrest].
  - reflexivity.
  - split; reflexivity.
  - destruct session as [[] sink]. vm_compute. reflexivity.
  - rewrite Hrest, Htrace. eexists. reflexivity.
Defined.
